(** * wmic: decoding the output of the [wmic] tool into typed records

    A shallow embedding of [wmi.go].  The repository carries two versions
    of the package: the key/value pipeline ([/VALUE] output, functions
    [QueryWithTimeout], [set], [setIntN], ...) and the older delimited
    pipeline ([/format:csv] output, decoded with [encoding/csv] and
    [csvutil]).  Both are embedded here, in the modules [KeyValue] and
    [Delimited]; what they share (Go's [strings], [bufio.Scanner] and
    [strconv], the reflected shape of the destination) comes first.

    Go strings are byte strings: they are modelled by [string], whose
    characters are the 256 byte values. *)

From Stdlib Require Import ZArith Ascii String List Lia.
From stdpp Require Import base tactics option list strings gmap.

Local Open Scope Z_scope.

(** ** Package [strings] and [unicode] *)

Module strings.

(** [unicode.IsSpace] read off the front of a byte string: the width in
    bytes of the white-space rune the string starts with, [0] when it
    starts with none.  The runes are the six ASCII ones, U+0085, U+00A0,
    U+1680, U+2000..U+200A, U+2028, U+2029, U+202F, U+205F and U+3000,
    in their UTF-8 encoding. *)
Definition leadingSpace (s : string) : nat :=
  match s with
  | String c s1 =>
      if Ascii.is_space c then 1%nat
      else match N_of_ascii c, s1 with
           | 194%N, String d _ =>
               match N_of_ascii d with
               | 133%N | 160%N => 2%nat
               | _ => 0%nat
               end
           | 225%N, String d (String e _) =>
               match N_of_ascii d, N_of_ascii e with
               | 154%N, 128%N => 3%nat
               | _, _ => 0%nat
               end
           | 226%N, String d (String e _) =>
               match N_of_ascii d with
               | 128%N =>
                   let n := N_of_ascii e in
                   if ((128 <=? n) && (n <=? 138))%N then 3%nat
                   else if ((n =? 168) || (n =? 169) || (n =? 175))%N then 3%nat
                   else 0%nat
               | 129%N => if (N_of_ascii e =? 159)%N then 3%nat else 0%nat
               | _ => 0%nat
               end
           | 227%N, String d (String e _) =>
               match N_of_ascii d, N_of_ascii e with
               | 128%N, 128%N => 3%nat
               | _, _ => 0%nat
               end
           | _, _ => 0%nat
           end
  | EmptyString => 0%nat
  end.

(** The same question asked of the end of the string, on the reversed
    bytes (what [utf8.DecodeLastRuneInString] finds by walking back to
    the lead byte). *)
Definition trailingSpace (r : string) : nat :=
  match r with
  | String c r1 =>
      if Ascii.is_space c then 1%nat
      else match r1 with
           | String d r2 =>
               match N_of_ascii d, N_of_ascii c with
               | 194%N, (133%N | 160%N) => 2%nat
               | _, _ =>
                   match r2 with
                   | String e _ =>
                       if Nat.eqb (leadingSpace (String e (String d (String c EmptyString)))) 3
                       then 3%nat else 0%nat
                   | EmptyString => 0%nat
                   end
               end
           | EmptyString => 0%nat
           end
  | EmptyString => 0%nat
  end.

Fixpoint drop (n : nat) (s : string) : string :=
  match n, s with
  | S n', String _ s' => drop n' s'
  | _, _ => s
  end.

(** [strings.TrimLeftFunc(s, unicode.IsSpace)]; the fuel is the length of
    the string, every round drops at least one byte. *)
Fixpoint trimLeftFuel (fuel : nat) (s : string) : string :=
  match fuel with
  | O => s
  | S fuel' =>
      match leadingSpace s with
      | O => s
      | w => trimLeftFuel fuel' (drop w s)
      end
  end.

Definition TrimLeft (s : string) : string := trimLeftFuel (String.length s) s.

Fixpoint trimRightFuel (fuel : nat) (r : string) : string :=
  match fuel with
  | O => r
  | S fuel' =>
      match trailingSpace r with
      | O => r
      | w => trimRightFuel fuel' (drop w r)
      end
  end.

Definition TrimRight (s : string) : string :=
  String.rev (trimRightFuel (String.length s) (String.rev s)).

(** [strings.TrimSpace] *)
Definition TrimSpace (s : string) : string := TrimRight (TrimLeft s).

(** The pieces of [s] between the occurrences of the byte [sep]; there is
    always at least one piece. *)
Fixpoint splitByte (sep : ascii) (s : string) : list string :=
  match s with
  | EmptyString => [EmptyString]
  | String c s' =>
      if Ascii.eqb c sep then EmptyString :: splitByte sep s'
      else match splitByte sep s' with
           | p :: ps => String c p :: ps
           | [] => [String c EmptyString]
           end
  end.

(** [strings.Split(s, sep)] for a one-byte separator. *)
Definition Split (s : string) (sep : ascii) : list string := splitByte sep s.

(** [strings.SplitN(s, sep, 2)] for a one-byte separator: the text before
    the first separator and the text after it, or [s] alone. *)
Fixpoint SplitN2 (s : string) (sep : ascii) : list string :=
  match s with
  | EmptyString => [EmptyString]
  | String c s' =>
      if Ascii.eqb c sep then [EmptyString; s']
      else match SplitN2 s' sep with
           | [a; b] => [String c a; b]
           | _ => [s]
           end
  end.

(** [strings.HasPrefix] and [strings.HasSuffix] *)
Definition HasPrefix (s p : string) : bool := String.prefix p s.
Fixpoint HasSuffix (s p : string) : bool :=
  String.eqb s p
  || match s with
     | EmptyString => false
     | String _ s' => HasSuffix s' p
     end.

(** [strings.Join] *)
Definition Join (elems : list string) (sep : string) : string :=
  String.concat sep elems.

(** [strings.ReplaceAll(s, old, "")] for a one-byte [old]. *)
Fixpoint RemoveAll (s : string) (old : ascii) : string :=
  match s with
  | EmptyString => EmptyString
  | String c s' =>
      if Ascii.eqb c old then RemoveAll s' old else String c (RemoveAll s' old)
  end.

End strings.

(** ** [bufio.Scanner] with the default [ScanLines] split function *)

Module bufio.

(** [bufio.MaxScanTokenSize]: a line that does not fit the buffer ends
    the scan ([Scan] returns false; the callers never look at [Err]). *)
Definition MaxScanTokenSize : N := 65536.

Definition fits (s : string) : bool :=
  (N.of_nat (String.length s) <? MaxScanTokenSize)%N.

Definition dropCR (s : string) : string :=
  match String.rev s with
  | String c r => if Ascii.eqb c "013" then String.rev r else s
  | EmptyString => s
  end.

Fixpoint scanTokens (segs : list string) : list string :=
  match segs with
  | [] => []
  | [final] =>
      if String.eqb final "" then []
      else if fits final then [dropCR final]
      else []
  | seg :: rest =>
      if fits seg
      then dropCR seg :: scanTokens rest
      else []
  end.

(** The texts that successive [scanner.Text()] calls return while
    [scanner.Scan()] is true. *)
Definition ScanLines (input : string) : list string :=
  scanTokens (strings.Split input "010").

End bufio.

(** ** Package [strconv] *)

Module strconv.

Definition digit (c : ascii) : option Z :=
  let n := Z.of_N (N_of_ascii c) in
  if (48 <=? n) && (n <=? 57) then Some (n - 48) else None.

(** The value of a run of decimal digits, most significant first. *)
Fixpoint digits (acc : Z) (s : string) : option Z :=
  match s with
  | EmptyString => Some acc
  | String c s' =>
      match digit c with
      | Some d => digits (10 * acc + d) s'
      | None => None
      end
  end.

(** [strconv.ParseUint(s, 10, bits)]: [None] is a non-nil error (syntax
    or range). *)
Definition ParseUint (s : string) (bits : Z) : option Z :=
  match s with
  | EmptyString => None
  | _ =>
      match digits 0 s with
      | Some n => if n <=? 2 ^ bits - 1 then Some n else None
      | None => None
      end
  end.

(** [strconv.ParseInt(s, 10, bits)] *)
Definition ParseInt (s : string) (bits : Z) : option Z :=
  match s with
  | EmptyString => None
  | String c s' =>
      let neg := Ascii.eqb c "-" in
      let body := if Ascii.eqb c "+" || neg then s' else s in
      match body with
      | EmptyString => None
      | _ =>
          match digits 0 body with
          | Some un =>
              let cutoff := 2 ^ (bits - 1) in
              if negb neg && (cutoff <=? un) then None
              else if neg && (cutoff <? un) then None
              else Some (if neg then - un else un)
          | None => None
          end
      end
  end.

(** [strconv.ParseBool] *)
Definition ParseBool (s : string) : option bool :=
  if bool_decide (s ∈ ["1"; "t"; "T"; "TRUE"; "true"; "True"]) then Some true
  else if bool_decide (s ∈ ["0"; "f"; "F"; "FALSE"; "false"; "False"]) then Some false
  else None.

End strconv.

(** ** The reflected shape of the destination *)

(** [reflect.Kind] of a struct field, as far as [set] tells kinds apart:
    the scalar kinds carry [Type().Bits()], every other kind its name
    ([Kind().String()]). *)
Inductive Kind :=
| KString
| KInt (bits : Z)
| KUint (bits : Z)
| KFloat (bits : Z)
| KBool
| KOther (name : string).

(** A struct type: [Type().Name()] and, in declaration order, the name and
    kind of each field.  The fields are exported and none is embedded, so
    that [FieldByName] finds a field exactly when its name is listed and
    the setters of [reflect] do not panic. *)
Record StructType := {
  TypeName : string;
  Fields : list (string * Kind)
}.

(** What [cmd.Run] leaves behind: its error, if any, and the two
    buffers. *)
Record Process := {
  RunError : option string;
  Stdout : string;
  Stderr : string
}.

(** What the package takes from outside: floating point ([float32] and
    [float64] values and [strconv.ParseFloat]), [time.ParseDuration], the
    [wmic] process itself (its answer to an argument list, under an
    optional time bound) and the text [fmt.Errorf] produces for a failed
    coercion (it prints the method value [v.Type().Name], an address). *)
Class Runtime := {
  float : Type;
  float_zero : float;
  ParseFloat : string -> Z -> option float;
  Duration : Type;
  ParseDuration : string -> option Duration;
  wmic : list string -> option Duration -> Process;
  unableToSet : Kind -> string -> string
}.

(** Go [error] values that the two pipelines return. *)
Inductive error :=
| FieldError (Field : string)
| UnsupportedTypeError (Field Type_ : string)
| errorString (text : string)
| durationError (timeout : string)
| runError (text : string)
| EOF
| csvParseError (text : string)
| csvutilError (text : string).

Global Instance Kind_eq_dec : EqDecision Kind.
Proof. solve_decision. Defined.

Global Instance error_eq_dec : EqDecision error.
Proof. solve_decision. Defined.

Section Destination.
Context `{Runtime}.

(** The value held by one struct field. *)
Inductive Value :=
| VString (s : string)
| VInt (n : Z)
| VUint (n : Z)
| VFloat (x : float)
| VBool (b : bool)
| VOther.

(** The zero value of a kind. *)
Definition zeroValue (k : Kind) : Value :=
  match k with
  | KString => VString ""
  | KInt _ => VInt 0
  | KUint _ => VUint 0
  | KFloat _ => VFloat float_zero
  | KBool => VBool false
  | KOther _ => VOther
  end.

(** [reflect.New(innerType)]: a fresh, zeroed struct. *)
Definition New (T : StructType) : list Value := map (fun f => zeroValue (snd f)) (Fields T).

(** The [out] argument as the reflection checks see it: a pointer to a
    slice of structs or of pointers to structs, with its contents (each
    element a struct of its own, the pointers do not alias); a pointer to
    a slice of something else; or something that is no slice. *)
Inductive OutArg :=
| OutSlice (innerTypeIsPointer : bool) (innerType : StructType) (elems : list (list Value))
| OutSliceOfNonStruct
| OutNotSlice.

(** [v.FieldByName(field)]: position and kind of the field. *)
Fixpoint fieldFrom (i : nat) (fs : list (string * Kind)) (field : string)
  : option (nat * Kind) :=
  match fs with
  | [] => None
  | (n, k) :: fs' =>
      if String.eqb n field then Some (i, k) else fieldFrom (S i) fs' field
  end.

Definition FieldByName (T : StructType) (field : string) : option (nat * Kind) :=
  fieldFrom 0 (Fields T) field.

End Destination.

(** A struct instance: the values of its fields, in declaration order. *)
Abbreviation Record_ := (list Value).

(** ** The key/value pipeline ([wmic ... /VALUE]) *)

Module KeyValue.
Section Pipeline.
Context `{Runtime}.

Definition TIMEOUT_DEFAULT : string := "30m".

Record RecordError := {
  Class : string;
  Field : string;
  Line : Z;
  Message : string
}.

(** [er.Error()] of the error values [set] can return. *)
Definition Error (e : error) : string :=
  match e with
  | FieldError f => "Cannot find field " +:+ f +:+ ", names are case-sensitive"
  | UnsupportedTypeError f t => "Field " +:+ f +:+ " has an unsupported type " +:+ t
  | errorString t | durationError t | runError t
  | csvParseError t | csvutilError t => t
  | EOF => "EOF"
  end.

(** The setters write field [i] of [item] in place and return [nil], or
    return an error and write nothing. *)
Definition setString (s : string) (i : nat) (item : Record_) : Record_ * option error :=
  (<[i := VString s]> item, None).

Definition setIntN (s : string) (i : nat) (item : Record_) (bits : Z)
  : Record_ * option error :=
  match strconv.ParseInt s bits with
  | None => (item, Some (errorString (unableToSet (KInt bits) s)))
  | Some n => (<[i := VInt n]> item, None)
  end.

Definition setUintN (s : string) (i : nat) (item : Record_) (bits : Z)
  : Record_ * option error :=
  match strconv.ParseUint s bits with
  | None => (item, Some (errorString (unableToSet (KUint bits) s)))
  | Some n => (<[i := VUint n]> item, None)
  end.

Definition setFloatN (s : string) (i : nat) (item : Record_) (bits : Z)
  : Record_ * option error :=
  match ParseFloat s bits with
  | None => (item, Some (errorString (unableToSet (KFloat bits) s)))
  | Some x => (<[i := VFloat x]> item, None)
  end.

Definition setBool (s : string) (i : nat) (item : Record_) : Record_ * option error :=
  match strconv.ParseBool s with
  | None => (item, Some (errorString (unableToSet KBool s)))
  | Some b => (<[i := VBool b]> item, None)
  end.

Definition set (T : StructType) (field s : string) (item : Record_)
  : Record_ * option error :=
  match FieldByName T field with
  | None => (item, Some (FieldError field))
  | Some (i, k) =>
      match k with
      | KString => setString s i item
      | KInt bits => setIntN s i item bits
      | KUint bits => setUintN s i item bits
      | KFloat bits => setFloatN s i item bits
      | KBool => setBool s i item
      | KOther name => (item, Some (UnsupportedTypeError field name))
      end
  end.

(** The type switch of the decoding loop: the two error types that end
    the call. *)
Definition isFatal (e : error) : bool :=
  match e with
  | FieldError _ | UnsupportedTypeError _ _ => true
  | _ => false
  end.

(** The [WHERE] part of the argument list. *)
Definition whereTokens (where_ : string) : list string :=
  if String.eqb where_ "" then []
  else
    let parts := strings.Split (strings.TrimSpace where_) " " in
    ["WHERE"]
      ++ (if negb (strings.HasPrefix (List.hd "" parts) "(") then ["("] else [])
      ++ parts
      ++ (if negb (strings.HasSuffix (List.last parts "") ")") then [")"] else []).

(** The column list after [GET], with the package-level [fieldCache]. *)
Definition getList (columns : list string) (innerType : StructType)
    (fieldCache : gmap string string) : string * gmap string string :=
  match columns with
  | [] =>
      let structName := TypeName innerType in
      match fieldCache !! structName with
      | Some val => (val, fieldCache)
      | None =>
          let colString := strings.Join (map fst (Fields innerType)) "," in
          (colString, <[structName := colString]> fieldCache)
      end
  | _ => (strings.Join columns ",", fieldCache)
  end.

(** The variables of the scanning loop. *)
Record Loop := {
  result : list Record_;
  item : Record_;
  contentStarted : bool;
  line : Z;
  recordErrors : list RecordError
}.

(** One round of [for scanner.Scan()]: the next state, or the values the
    [return] inside the loop hands back. *)
Definition scanStep (class : string) (T : StructType) (st : Loop) (text : string)
  : (list RecordError * error) + Loop :=
  let s := strings.TrimSpace text in
  if String.eqb s "" then
    if contentStarted st then
      inr {| result := result st ++ [item st];
             item := New T;
             contentStarted := false;
             line := line st + 1;
             recordErrors := recordErrors st |}
    else inr st
  else
    let started := {| result := result st; item := item st; contentStarted := true;
                      line := line st; recordErrors := recordErrors st |} in
    match strings.SplitN2 s "=" with
    | [param; rest] =>
        let val := strings.TrimSpace rest in
        if String.eqb val "" then inr started
        else
          match set T param val (item st) with
          | (item', None) =>
              inr {| result := result st; item := item'; contentStarted := true;
                     line := line st; recordErrors := recordErrors st |}
          | (item', Some err) =>
              if isFatal err then inl (recordErrors st, err)
              else
                inr {| result := result st; item := item'; contentStarted := true;
                       line := line st;
                       recordErrors :=
                         recordErrors st
                           ++ [{| Class := class; Field := param; Line := line st;
                                  Message := Error err |}] |}
          end
    | _ => inr started
    end.

Fixpoint scanLoop (class : string) (T : StructType) (st : Loop) (lines : list string)
  : (list RecordError * error) + Loop :=
  match lines with
  | [] => inr st
  | text :: lines' =>
      match scanStep class T st text with
      | inl ret => inl ret
      | inr st' => scanLoop class T st' lines'
      end
  end.

Definition startLoop (T : StructType) : Loop :=
  {| result := []; item := New T; contentStarted := false; line := 1;
     recordErrors := [] |}.

(** The records that end up in the destination once the loop is over. *)
Definition finish (st : Loop) : list Record_ :=
  if contentStarted st then result st ++ [item st] else result st.

(** What a call leaves behind: the field cache, the destination, the
    argument list handed to [wmic] if the process was started, and the
    two returned values. *)
Record Outcome := {
  cache : gmap string string;
  dest : OutArg;
  argv : option (list string);
  errors : list RecordError;
  err : option error
}.

Definition QueryWithTimeout (class : string) (columns : list string) (where_ : string)
    (out : OutArg) (timeout : string) (fieldCache : gmap string string) : Outcome :=
  match out with
  | OutNotSlice =>
      {| cache := fieldCache; dest := out; argv := None; errors := [];
         err := Some (errorString "You must provide a slice to the out argument") |}
  | OutSliceOfNonStruct =>
      {| cache := fieldCache; dest := out; argv := None; errors := [];
         err := Some (errorString "You must provide a struct as the type of the out slice") |}
  | OutSlice innerTypeIsPointer innerType _ =>
      let (cols, fieldCache') := getList columns innerType fieldCache in
      let query :=
        ["PATH"; class] ++ whereTokens where_ ++ ["GET"] ++ [cols]
          ++ ["/format:rawxml"] ++ ["/VALUE"] in
      match ParseDuration timeout with
      | None =>
          {| cache := fieldCache'; dest := out; argv := None; errors := [];
             err := Some (durationError timeout) |}
      | Some duration =>
          let cmd := wmic query (Some duration) in
          match RunError cmd with
          | Some e =>
              {| cache := fieldCache'; dest := out; argv := Some query; errors := [];
                 err := Some (runError e) |}
          | None =>
              if negb (String.eqb (Stderr cmd) "") then
                {| cache := fieldCache'; dest := out; argv := Some query; errors := [];
                   err := Some (errorString (Stderr cmd)) |}
              else
                match scanLoop class innerType (startLoop innerType)
                        (bufio.ScanLines (Stdout cmd)) with
                | inl (recordErrors, e) =>
                    {| cache := fieldCache'; dest := out; argv := Some query;
                       errors := recordErrors; err := Some e |}
                | inr st =>
                    {| cache := fieldCache';
                       dest := OutSlice innerTypeIsPointer innerType (finish st);
                       argv := Some query;
                       errors := recordErrors st; err := None |}
                end
          end
      end
  end.

Definition Query (class : string) (columns : list string) (where_ : string)
    (out : OutArg) (fieldCache : gmap string string) : Outcome :=
  QueryWithTimeout class [] where_ out TIMEOUT_DEFAULT fieldCache.

Definition QueryAll (class : string) (out : OutArg) := Query class [] "" out.

Definition QueryAllWithTimeout (class : string) (out : OutArg) (timeout : string) :=
  QueryWithTimeout class [] "" out timeout.

Definition QueryColumns (class : string) (columns : list string) (out : OutArg) :=
  Query class columns "" out.

Definition QueryColumnsWithTimeout (class : string) (columns : list string)
    (out : OutArg) (timeout : string) :=
  QueryWithTimeout class columns "" out timeout.

Definition QueryWhere (class where_ : string) (out : OutArg) :=
  Query class [] where_ out.

Definition QueryWhereWithTimeout (class where_ : string) (out : OutArg)
    (timeout : string) :=
  QueryWithTimeout class [] where_ out timeout.

End Pipeline.
End KeyValue.

(** ** The delimited pipeline ([wmic ... /format:csv]) *)

(** [csvutil]'s conversion of one record of the table into a struct, given
    the header: a fresh struct on success, the library's error otherwise.
    The library is not part of the package; the pipeline is embedded over
    any such conversion. *)
Class Csvutil `{Runtime} := {
  unmarshal : StructType -> list string -> list string -> error + Record_
}.

Module Delimited.
Section Pipeline.
Context `{Runtime} `{!Csvutil}.

Definition whereTokens (where_ : string) : list string :=
  if String.eqb where_ "" then []
  else
    let parts := strings.Split (strings.TrimSpace where_) " " in
    ["WHERE"]
      ++ (if negb (strings.HasPrefix (List.hd "" parts) "(") then ["("] else [])
      ++ parts
      ++ (if negb (strings.HasSuffix (List.last parts "") ")") then [")"] else []).

(** The loop that fills the [strings.Builder]: one round per scanned
    line. *)
Definition writeLine (sb : string) (s : string) : string :=
  if negb (String.eqb (strings.TrimSpace s) "")
  then sb +:+ strings.RemoveAll s "034" +:+ String "010" ""
  else sb.

Definition buildSource (stdout : string) : string :=
  fold_left writeLine (bufio.ScanLines stdout) "".

(** [encoding/csv]: the lines [Reader.Read] works through ([\r\n] read as
    [\n], empty lines skipped) and, for a line without quote characters,
    its fields under [TrimLeadingSpace]. *)
Definition csvLines (source : string) : list string :=
  filter (fun l => l <> "") (map bufio.dropCR (strings.Split source "010")).

Definition csvFields (l : string) : list string :=
  map strings.TrimLeft (strings.Split l ",").

Definition ErrFieldCount : error := csvParseError "wrong number of fields".

(** [dec.Decode(&i)] on the next record of the table, the reader having
    fixed [FieldsPerRecord] on the header. *)
Definition Decode (T : StructType) (header : list string) (record : list string)
  : error + Record_ :=
  if bool_decide (length record = length header)
  then unmarshal T header record
  else inl ErrFieldCount.

(** The [for] loop over the records that remain; an empty list of them is
    [io.EOF]. *)
Fixpoint decodeLoop (T : StructType) (header : list string)
    (records : list (list string)) (result : list Record_) : error + list Record_ :=
  match records with
  | [] => inr result
  | record :: records' =>
      match Decode T header record with
      | inl EOF => inr result
      | inl (csvParseError _) => decodeLoop T header records' result
      | inl e => inl e
      | inr i => decodeLoop T header records' (result ++ [i])
      end
  end.

Record Outcome := {
  dest : OutArg;
  argv : option (list string);
  err : option error
}.

Definition Query (class : string) (columns : list string) (where_ : string)
    (out : OutArg) : Outcome :=
  let query :=
    ["PATH"; class] ++ whereTokens where_ ++ ["GET"]
      ++ (match columns with [] => [] | _ => [strings.Join columns ","] end)
      ++ ["/format:csv"] in
  let cmd := wmic query None in
  match RunError cmd with
  | Some e => {| dest := out; argv := Some query; err := Some (runError e) |}
  | None =>
      if negb (String.eqb (Stderr cmd) "") then
        {| dest := out; argv := Some query; err := Some (errorString (Stderr cmd)) |}
      else
        let source := buildSource (Stdout cmd) in
        match out with
        | OutNotSlice =>
            {| dest := out; argv := Some query;
               err := Some (errorString "You must provide a slice to the out argument") |}
        | OutSliceOfNonStruct =>
            {| dest := out; argv := Some query;
               err := Some (errorString
                              "You must provide a struct as the type of the out slice") |}
        | OutSlice innerTypeIsPointer innerType _ =>
            match map csvFields (csvLines source) with
            | [] => {| dest := out; argv := Some query; err := Some EOF |}
            | header :: records =>
                match decodeLoop innerType header records [] with
                | inl e => {| dest := out; argv := Some query; err := Some e |}
                | inr result =>
                    {| dest := OutSlice innerTypeIsPointer innerType result;
                       argv := Some query; err := None |}
                end
            end
        end
  end.

Definition QueryAll (class : string) (out : OutArg) := Query class [] "" out.

Definition QueryColumns (class : string) (columns : list string) (out : OutArg) :=
  Query class columns "" out.

Definition QueryWhere (class where_ : string) (out : OutArg) :=
  Query class [] where_ out.

End Pipeline.
End Delimited.

(** ** [csvutil] for structs of scalar fields

    A model of the library, for running the delimited pipeline on the
    end-to-end example.  Column by column, left to right: a column whose
    header names a field of the struct is converted into it with
    [strconv]; the other columns are not used.  A value that does not
    convert, or a field of a kind [strconv] has no conversion for, ends the
    record with the library's error. *)

Section ScalarCsvutil.
Context `{Runtime}.

Definition decodeColumn (T : StructType) (i : Record_) (column : string * string)
  : error + Record_ :=
  let (name, s) := column in
  match FieldByName T name with
  | None => inr i
  | Some (n, k) =>
      let bad := inl (csvutilError ("csvutil: cannot unmarshal " +:+ s)) in
      match k with
      | KString => inr (<[n := VString s]> i)
      | KInt bits =>
          match strconv.ParseInt s bits with
          | Some z => inr (<[n := VInt z]> i)
          | None => bad
          end
      | KUint bits =>
          match strconv.ParseUint s bits with
          | Some z => inr (<[n := VUint z]> i)
          | None => bad
          end
      | KFloat bits =>
          match ParseFloat s bits with
          | Some x => inr (<[n := VFloat x]> i)
          | None => bad
          end
      | KBool =>
          match strconv.ParseBool s with
          | Some b => inr (<[n := VBool b]> i)
          | None => bad
          end
      | KOther t => inl (csvutilError ("csvutil: unsupported type: " +:+ t))
      end
  end.

Fixpoint decodeColumns (T : StructType) (i : Record_) (columns : list (string * string))
  : error + Record_ :=
  match columns with
  | [] => inr i
  | c :: columns' =>
      match decodeColumn T i c with
      | inl e => inl e
      | inr i' => decodeColumns T i' columns'
      end
  end.

Definition scalarUnmarshal (T : StructType) (header record : list string)
  : error + Record_ :=
  decodeColumns T (New T) (zip header record).

Definition scalarCsvutil : Csvutil := {| unmarshal := scalarUnmarshal |}.

End ScalarCsvutil.

(** ** A runtime to run the pipelines on

    Floating point is cut down to the integer literals, durations to whole
    seconds, minutes and hours; the process answers every argument list
    with one output when it runs under a time bound and with another when
    it does not. *)

Module TestRuntime.

Definition parseDuration (s : string) : option Z :=
  match String.rev s with
  | String u r =>
      match strconv.digits 0 (String.rev r), r with
      | Some n, String _ _ =>
          if Ascii.eqb u "s" then Some n
          else if Ascii.eqb u "m" then Some (60 * n)
          else if Ascii.eqb u "h" then Some (3600 * n)
          else None
      | _, _ => None
      end
  | EmptyString => None
  end.

Definition answering (timed untimed : Process) : Runtime := {|
  float := Z;
  float_zero := 0;
  ParseFloat := fun s _ => strconv.ParseInt s 64;
  Duration := Z;
  ParseDuration := parseDuration;
  wmic := fun _ d => match d with Some _ => timed | None => untimed end;
  unableToSet := fun _ s => "Unable to set field type " +:+ s
|}.

Definition prints (text : string) : Process :=
  {| RunError := None; Stdout := text; Stderr := "" |}.

Definition printing (text : string) : Runtime :=
  answering (prints text) (prints text).

(** Lines joined with line feeds, the way the process prints them. *)
Definition lines (ls : list string) : string :=
  String.concat (String "010" "") ls.

Definition person : StructType :=
  {| TypeName := "person"; Fields := [("Name", KString); ("Age", KInt 64)] |}.

(** A text with the quote character around it. *)
Definition quoted (s : string) : string := String "034" (s +:+ String "034" "").

(** The two outputs of the end-to-end examples. *)
Definition kvText : string :=
  lines ["Name=Alice"; "Age=30"; ""; "Name=Bob"; "Age=not-a-number"].

Definition csvText : string :=
  lines ["Name,Age"; quoted "Carol" +:+ "," +:+ quoted "41"].

Definition examples : Runtime := answering (prints kvText) (prints csvText).

End TestRuntime.

(** ** Framing of the key/value output, stated apart from decoding

    The output is a sequence of blocks: maximal runs of non-blank lines,
    kept apart by blank lines.  A block is a row; its raw fields are the
    [name=value] lines whose value is not empty, in order; the record of a
    row is a fresh struct after the fields have been assigned in turn. *)

Module Framing.
Section Rows.
Context `{Runtime}.

Definition blank (text : string) : bool :=
  String.eqb (strings.TrimSpace text) "".

(** The blocks closed so far and the block still open. *)
Definition frameStep (st : list (list string) * list string) (text : string)
  : list (list string) * list string :=
  let (closed, cur) := st in
  if blank text then
    match cur with
    | [] => (closed, [])
    | _ => (closed ++ [cur], [])
    end
  else (closed, cur ++ [text]).

Definition frameState (lines : list string) : list (list string) * list string :=
  fold_left frameStep lines ([], []).

Definition blocks (lines : list string) : list (list string) :=
  let (closed, cur) := frameState lines in
  match cur with
  | [] => closed
  | _ => closed ++ [cur]
  end.

Definition rawField (text : string) : option (string * string) :=
  match strings.SplitN2 (strings.TrimSpace text) "=" with
  | [param; rest] =>
      let val := strings.TrimSpace rest in
      if String.eqb val "" then None else Some (param, val)
  | _ => None
  end.

Definition rawRow (block : list string) : list (string * string) :=
  omap rawField block.

Definition rows (lines : list string) : list (list (string * string)) :=
  map rawRow (blocks lines).

Definition assign (T : StructType) (item : Record_) (f : string * string) : Record_ :=
  fst (KeyValue.set T (fst f) (snd f) item).

Definition decodeRow (T : StructType) (row : list (string * string)) : Record_ :=
  fold_left (assign T) row (New T).

(** The error that ends the call when a field of this name is assigned:
    the name is not a field of the struct, or the field has a kind without
    a setter. *)
Definition fatalError (T : StructType) (name : string) : option error :=
  match FieldByName T name with
  | None => Some (FieldError name)
  | Some (_, KOther t) => Some (UnsupportedTypeError name t)
  | Some _ => None
  end.

(** A value that does not convert to the kind of the field. *)
Definition coercionFails (k : Kind) (val : string) : Prop :=
  match k with
  | KInt bits => strconv.ParseInt val bits = None
  | KUint bits => strconv.ParseUint val bits = None
  | KFloat bits => ParseFloat val bits = None
  | KBool => strconv.ParseBool val = None
  | KString | KOther _ => False
  end.

(** A row all of whose fields can be assigned: each names a field of the
    struct that has a setter. *)
Definition wellFormed (T : StructType) (row : list (string * string)) : Prop :=
  Forall (fun f => fatalError T (fst f) = None) row.

(** A line that the framer has put in a block, closed or open. *)
Definition covered (text : string) (fs : list (list string) * list string) : Prop :=
  In text (snd fs) \/ exists b, In b (fst fs) /\ In text b.

(** The state of the loop after a non-blank line that assigns nothing. *)
Definition started (st : KeyValue.Loop) : KeyValue.Loop :=
  {| KeyValue.result := KeyValue.result st; KeyValue.item := KeyValue.item st;
     KeyValue.contentStarted := true; KeyValue.line := KeyValue.line st;
     KeyValue.recordErrors := KeyValue.recordErrors st |}.

(** How the variables of the loop stand to the framing of the lines read
    so far: the records of the closed blocks, the record of the open
    block, whether there is an open block, and the number of the row being
    filled. *)
Definition tracks (T : StructType) (st : KeyValue.Loop)
    (fs : list (list string) * list string) : Prop :=
  KeyValue.result st = map (fun b => decodeRow T (rawRow b)) (fst fs)
  /\ KeyValue.item st = decodeRow T (rawRow (snd fs))
  /\ KeyValue.contentStarted st = negb (bool_decide (snd fs = []))
  /\ KeyValue.line st = Z.of_nat (length (fst fs)) + 1.

End Rows.
End Framing.

(** ** The table of the delimited output, stated apart from the loop *)

Module Table.
Section Records.
Context `{Runtime} `{!Csvutil}.

(** Under the time bound [d] (none for the delimited pipeline) the process
    runs without error, writes [text] and nothing to its error channel,
    whatever it is asked. *)
Definition answers (d : option Duration) (text : string) : Prop :=
  forall query : list string,
    wmic query d = {| RunError := None; Stdout := text; Stderr := "" |}.

(** The records the reader finds in the output; the first one is the
    header. *)
Definition table (text : string) : list (list string) :=
  map Delimited.csvFields (Delimited.csvLines (Delimited.buildSource text)).

(** The structs of the records that decode, in the order of the records. *)
Definition decoded (T : StructType) (header : list string)
    (records : list (list string)) : list Record_ :=
  omap (fun r => match Delimited.Decode T header r with
                 | inr i => Some i
                 | inl _ => None
                 end) records.

(** A record of the right shape: as many fields as the header. *)
Definition shaped (header record : list string) : Prop :=
  length record = length header.

(** A record that is decoded or skipped: [Decode] returns a struct or a
    [csv.ParseError]. *)
Definition passes (T : StructType) (header record : list string) : Prop :=
  match Delimited.Decode T header record with
  | inr _ => True
  | inl e => exists t, e = csvParseError t
  end.

(** A line with the quote characters at its two ends taken off and the
    others kept: the reading under which only leading and trailing quotes
    are stripped. *)
Fixpoint dropQuotes (s : string) : string :=
  match s with
  | String c s' => if Ascii.eqb c "034" then dropQuotes s' else s
  | EmptyString => EmptyString
  end.

Definition trimQuotes (s : string) : string :=
  String.rev (dropQuotes (String.rev (dropQuotes s))).

End Records.
End Table.

(** ** What a struct of a given type may hold *)

Module Typing.
Section Values.
Context `{Runtime}.

(** A value of the kind: of the matching Go type and, for the integers,
    within the range of the declared width. *)
Definition hasKind (k : Kind) (v : Value) : Prop :=
  match k, v with
  | KString, VString _ => True
  | KInt bits, VInt n => - 2 ^ (bits - 1) <= n <= 2 ^ (bits - 1) - 1
  | KUint bits, VUint n => 0 <= n <= 2 ^ bits - 1
  | KFloat _, VFloat _ => True
  | KBool, VBool _ => True
  | KOther _, VOther => True
  | _, _ => False
  end.

(** The widths of the numeric fields are positive, as those of Go's types
    are (8 to 64). *)
Definition validKind (k : Kind) : Prop :=
  match k with
  | KInt bits | KUint bits | KFloat bits => 0 < bits
  | _ => True
  end.

Definition validType (T : StructType) : Prop :=
  Forall (fun f => validKind (snd f)) (Fields T).

(** A struct of type [T]: one value per field, each of the kind of its
    field. *)
Definition wellTyped (T : StructType) (r : Record_) : Prop :=
  Forall2 (fun f v => hasKind (snd f) v) (Fields T) r.

(** The kinds whose setter can fail on a value. *)
Definition convertible (k : Kind) : Prop :=
  match k with
  | KInt _ | KUint _ | KFloat _ | KBool => True
  | KString | KOther _ => False
  end.

(** What holds of the recoverable errors gathered by the loop: each
    carries the class, names a field whose setter can fail, and has the
    number of a row that the loop has started; their row numbers never go
    down. *)
Definition attributed (class : string) (T : StructType) (bound : Z)
    (e : KeyValue.RecordError) : Prop :=
  KeyValue.Class e = class
  /\ 1 <= KeyValue.Line e <= bound
  /\ exists i k, FieldByName T (KeyValue.Field e) = Some (i, k) /\ convertible k.

Definition ascending (errs : list KeyValue.RecordError) : Prop :=
  forall (i j : nat) (a b : KeyValue.RecordError),
    (i <= j)%nat -> errs !! i = Some a -> errs !! j = Some b ->
    KeyValue.Line a <= KeyValue.Line b.

(** The rows the loop has started: the stored ones and the one in
    progress. *)
Definition rowsStarted (st : KeyValue.Loop) : Z :=
  Z.of_nat (length (KeyValue.result st))
  + (if KeyValue.contentStarted st then 1 else 0).

Definition errorsInv (class : string) (T : StructType) (st : KeyValue.Loop) : Prop :=
  KeyValue.line st = Z.of_nat (length (KeyValue.result st)) + 1
  /\ Forall (attributed class T (rowsStarted st)) (KeyValue.recordErrors st)
  /\ ascending (KeyValue.recordErrors st).

Definition typedInv (T : StructType) (st : KeyValue.Loop) : Prop :=
  Forall (wellTyped T) (KeyValue.result st) /\ wellTyped T (KeyValue.item st).

End Values.
End Typing.

(** ** The lines of a text, whatever their length *)

Module RawText.





End RawText.

(** ** Outputs with a long line, and a table of several records *)

Module TestTexts.




(** The third record has too few fields, the fourth a value that is no
    integer. *)
Definition csvMixed : string :=
  TestRuntime.lines ["Name,Age"; "Carol,41"; "x"; "Dave,old"; "Eve,5"].

End TestTexts.

(** * Properties *)

(** ** Strings *)

Example TrimSpace_ex1 : strings.TrimSpace "  Name=Alice " = "Name=Alice".
Proof. reflexivity. Qed.

Example Split_ex1 : strings.Split "a  b" " " = ["a"; ""; "b"].
Proof. reflexivity. Qed.

Example ScanLines_ex1 :
  bufio.ScanLines (String "a" (String "013" (String "010" (String "010" "b"))))
  = ["a"; ""; "b"].
Proof. reflexivity. Qed.

Example ParseInt_ex1 : strconv.ParseInt "-128" 8 = Some (-128).
Proof. reflexivity. Qed.

Example ParseInt_ex2 : strconv.ParseInt "128" 8 = None.
Proof. reflexivity. Qed.

Example TrimSpace_ex2 :
  strings.TrimSpace (String "194" (String "160" (String "a" (String " " (String "b"
    (String "226" (String "128" (String "131" (String "009" ""))))))))) = "a b".
Proof. reflexivity. Qed.

Example TrimSpace_ex3 : strings.TrimSpace " xy" = "xy".
Proof. reflexivity. Qed.

Lemma splitByte_not_nil (sep : ascii) (s : string) : strings.splitByte sep s <> [].
Proof.
  destruct s as [|c s]; simpl; [discriminate|].
  destruct (Ascii.eqb c sep); [discriminate|].
  destruct (strings.splitByte sep s); discriminate.
Qed.

Lemma splitByte_single (sep : ascii) (s p : string) :
  strings.splitByte sep s = [p] -> p = s.
Proof.
  revert p. induction s as [|c s IH]; simpl; intros p Hp.
  - congruence.
  - destruct (Ascii.eqb c sep).
    + exfalso. inversion Hp as [[Hp1 Hp2]]. by apply (splitByte_not_nil sep s).
    + destruct (strings.splitByte sep s) as [|q qs] eqn:E.
      * by apply splitByte_not_nil in E.
      * inversion Hp; subst. f_equal. by apply IH.
Qed.

Lemma prefix_byte (c : ascii) (s : string) :
  String.prefix (String c "") s
  = match s with String d _ => Ascii.eqb c d | EmptyString => false end.
Proof.
  destruct s as [|d s]; simpl; [done|].
  destruct (ascii_dec c d) as [->|Hne].
  - rewrite Ascii.eqb_refl. by destruct s.
  - symmetry. by apply Ascii.eqb_neq.
Qed.

(** The first piece of a split starts like the whole text does. *)
Lemma HasPrefix_hd_Split (s : string) (c sep : ascii) :
  c <> sep ->
  strings.HasPrefix (List.hd "" (strings.Split s sep)) (String c "")
  = strings.HasPrefix s (String c "").
Proof.
  intros Hne. unfold strings.HasPrefix, strings.Split. rewrite !prefix_byte.
  destruct s as [|d s]; simpl; [done|].
  destruct (Ascii.eqb d sep) eqn:E; simpl.
  - apply Ascii.eqb_eq in E as ->. symmetry. by apply Ascii.eqb_neq.
  - destruct (strings.splitByte sep s); done.
Qed.

(** The last piece of a split ends like the whole text does. *)
Lemma HasSuffix_last_Split (s : string) (c sep : ascii) :
  c <> sep ->
  strings.HasSuffix (List.last (strings.Split s sep) "") (String c "")
  = strings.HasSuffix s (String c "").
Proof.
  intros Hne. unfold strings.Split.
  induction s as [|d s IH]; [done|].
  cbn [strings.splitByte].
  destruct (Ascii.eqb d sep) eqn:E.
  - apply Ascii.eqb_eq in E as ->.
    destruct (strings.splitByte sep s) as [|q qs] eqn:Es.
    { by apply splitByte_not_nil in Es. }
    change (List.last ("" :: q :: qs) "") with (List.last (q :: qs) "").
    rewrite IH. cbn [strings.HasSuffix].
    replace (String.eqb (String sep s) (String c "")) with false; [done|].
    symmetry. apply String.eqb_neq. congruence.
  - destruct (strings.splitByte sep s) as [|q qs] eqn:Es.
    { by apply splitByte_not_nil in Es. }
    destruct qs as [|q' qs].
    + apply splitByte_single in Es as ->. done.
    + change (List.last (String d q :: q' :: qs) "") with (List.last (q :: q' :: qs) "").
      rewrite IH. cbn [strings.HasSuffix].
      replace (String.eqb (String d s) (String c "")) with false; [done|].
      symmetry. apply String.eqb_neq. intros [= -> ->]. discriminate Es.
Qed.

(** The fuel of the two trimming loops is enough: nothing is left to trim
    at the end they work on. *)
Lemma drop_length (w : nat) (s : string) :
  (0 < w)%nat -> s <> "" ->
  (String.length (strings.drop w s) < String.length s)%nat.
Proof.
  revert w. induction s as [|c s IH]; intros w Hw Hs; [done|].
  destruct w as [|w]; [lia|]. simpl.
  destruct w as [|w]; [destruct s; simpl; lia|].
  destruct s as [|c' s]; [simpl; lia|].
  assert (String.length (strings.drop (S w) (String c' s)) < String.length (String c' s))%nat
    by (apply IH; [lia|done]).
  simpl in *. lia.
Qed.

Lemma leadingSpace_empty : strings.leadingSpace "" = 0%nat.
Proof. reflexivity. Qed.

Lemma trailingSpace_empty : strings.trailingSpace "" = 0%nat.
Proof. reflexivity. Qed.

Lemma trimLeftFuel_done (fuel : nat) (s : string) :
  (String.length s <= fuel)%nat ->
  strings.leadingSpace (strings.trimLeftFuel fuel s) = 0%nat.
Proof.
  revert s. induction fuel as [|fuel IH]; intros s Hlen.
  - destruct s; [done|simpl in Hlen; lia].
  - cbn [strings.trimLeftFuel].
    destruct (strings.leadingSpace s) as [|w] eqn:E; [done|].
    apply IH.
    assert (s <> "") as Hs by (intros ->; discriminate).
    pose proof (drop_length (S w) s ltac:(lia) Hs). lia.
Qed.

Lemma trimRightFuel_done (fuel : nat) (r : string) :
  (String.length r <= fuel)%nat ->
  strings.trailingSpace (strings.trimRightFuel fuel r) = 0%nat.
Proof.
  revert r. induction fuel as [|fuel IH]; intros r Hlen.
  - destruct r; [done|simpl in Hlen; lia].
  - cbn [strings.trimRightFuel].
    destruct (strings.trailingSpace r) as [|w] eqn:E; [done|].
    apply IH.
    assert (r <> "") as Hr by (intros ->; discriminate).
    pose proof (drop_length (S w) r ltac:(lia) Hr). lia.
Qed.

Lemma TrimLeft_done (s : string) : strings.leadingSpace (strings.TrimLeft s) = 0%nat.
Proof. by apply trimLeftFuel_done. Qed.

Lemma rev_app_length (s t : string) :
  String.length (String.rev_app s t) = (String.length s + String.length t)%nat.
Proof.
  revert t. induction s as [|c s IH]; intros t; simpl; [done|].
  rewrite IH. simpl. lia.
Qed.

Lemma TrimRight_done (s : string) :
  strings.trailingSpace (strings.trimRightFuel (String.length s) (String.rev s)) = 0%nat.
Proof.
  apply trimRightFuel_done. unfold String.rev. rewrite rev_app_length. simpl. lia.
Qed.

(** ** The argument list *)

Section Arguments.
Context `{Runtime} `{!Csvutil}.

Lemma whereTokens_same (where_ : string) :
  Delimited.whereTokens where_ = KeyValue.whereTokens where_.
Proof. reflexivity. Qed.

(** The argument list of the key/value pipeline, once the destination has
    passed the reflection checks and the time bound has parsed. *)
Lemma KeyValue_argv (class : string) (columns : list string) (where_ : string)
    (ptr : bool) (T : StructType) (elems : list Record_) (timeout : string)
    (fieldCache : gmap string string) (d : Duration) :
  ParseDuration timeout = Some d ->
  KeyValue.argv
    (KeyValue.QueryWithTimeout class columns where_ (OutSlice ptr T elems) timeout
       fieldCache)
  = Some (["PATH"; class] ++ KeyValue.whereTokens where_
            ++ ["GET"; fst (KeyValue.getList columns T fieldCache);
                "/format:rawxml"; "/VALUE"]).
Proof.
  intros Hd. unfold KeyValue.QueryWithTimeout.
  destruct (KeyValue.getList columns T fieldCache) as [cols fc'].
  rewrite Hd. cbn [fst].
  destruct (RunError _); [done|].
  destruct (negb _); [done|].
  destruct (KeyValue.scanLoop _ _ _ _) as [[? ?]|?]; done.
Qed.

Lemma Delimited_argv (class : string) (columns : list string) (where_ : string)
    (out : OutArg) :
  Delimited.argv (Delimited.Query class columns where_ out)
  = Some (["PATH"; class] ++ Delimited.whereTokens where_ ++ ["GET"]
            ++ (match columns with [] => [] | _ => [strings.Join columns ","] end)
            ++ ["/format:csv"]).
Proof.
  unfold Delimited.Query.
  destruct (RunError _); [done|].
  destruct (negb _); [done|].
  destruct out as [ptr T elems| |]; [|done..].
  destruct (map _ _); [done|].
  destruct (Delimited.decodeLoop _ _ _ _); done.
Qed.

(** With an explicit column list [QueryWithTimeout] asks for exactly those
    columns, and leaves the field cache alone. *)
Lemma getList_explicit (columns : list string) (T : StructType)
    (fieldCache : gmap string string) :
  columns <> [] ->
  KeyValue.getList columns T fieldCache = (strings.Join columns ",", fieldCache).
Proof. by destruct columns. Qed.

(** [Query] passes an empty column list on, whatever it was given. *)
Lemma Query_columns_unused (class : string) (columns : list string) (where_ : string)
    (out : OutArg) (fieldCache : gmap string string) :
  KeyValue.Query class columns where_ out fieldCache
  = KeyValue.Query class [] where_ out fieldCache.
Proof. reflexivity. Qed.

End Arguments.

(** C5.  A non-empty filter clause goes into the argument list of both
    pipelines as [WHERE] followed by its space-separated tokens, between
    the class and [GET]; an opening parenthesis token is put in front
    exactly when the first token (equivalently, the trimmed clause) does
    not start with one, a closing parenthesis token behind exactly when the
    last token (equivalently, the trimmed clause) does not end with one.
    So a clause in parentheses is passed as it is and a clause without
    them is wrapped once. *)
Theorem where_clause_wrapped_once `{Runtime} `{!Csvutil}
    (class where_ timeout : string) (columns : list string) (ptr : bool)
    (T : StructType) (elems : list Record_) (fieldCache : gmap string string)
    (d : Duration) (out : OutArg) :
  where_ <> "" ->
  ParseDuration timeout = Some d ->
  let clause := strings.TrimSpace where_ in
  let parts := strings.Split clause " " in
  let opening := if strings.HasPrefix (List.hd "" parts) "(" then [] else ["("] in
  let closing := if strings.HasSuffix (List.last parts "") ")" then [] else [")"] in
  KeyValue.argv
    (KeyValue.QueryWithTimeout class columns where_ (OutSlice ptr T elems) timeout
       fieldCache)
  = Some (["PATH"; class] ++ ["WHERE"] ++ opening ++ parts ++ closing
            ++ ["GET"; fst (KeyValue.getList columns T fieldCache);
                "/format:rawxml"; "/VALUE"])
  /\ Delimited.argv (Delimited.Query class columns where_ out)
     = Some (["PATH"; class] ++ ["WHERE"] ++ opening ++ parts ++ closing ++ ["GET"]
               ++ (match columns with [] => [] | _ => [strings.Join columns ","] end)
               ++ ["/format:csv"])
  /\ strings.HasPrefix (List.hd "" parts) "(" = strings.HasPrefix clause "("
  /\ strings.HasSuffix (List.last parts "") ")" = strings.HasSuffix clause ")".
Proof.
  intros Hw Hd clause parts opening closing.
  assert (KeyValue.whereTokens where_ = ["WHERE"] ++ opening ++ parts ++ closing) as Hk.
  { unfold KeyValue.whereTokens.
    apply String.eqb_neq in Hw. rewrite Hw.
    subst opening closing parts clause.
    destruct (strings.HasPrefix _ _), (strings.HasSuffix _ _); reflexivity. }
  split; [|split; [|split]].
  - rewrite (KeyValue_argv _ _ _ _ _ _ _ _ d Hd), Hk.
    by rewrite <- !app_assoc.
  - rewrite Delimited_argv, whereTokens_same, Hk.
    by rewrite <- !app_assoc.
  - by apply HasPrefix_hd_Split.
  - by apply HasSuffix_last_Split.
Qed.

Lemma where_clause_wrapped_once_witness :
  KeyValue.argv
    (@KeyValue.QueryWithTimeout (TestRuntime.printing "") "Win32_Process" []
       "Name = 'x')" (OutSlice false TestRuntime.person []) "30m" ∅)
  = Some ["PATH"; "Win32_Process"; "WHERE"; "("; "Name"; "="; "'x')"; "GET";
          "Name,Age"; "/format:rawxml"; "/VALUE"].
Proof.
  refine (proj1 (@where_clause_wrapped_once (TestRuntime.printing "") scalarCsvutil
                   "Win32_Process" "Name = 'x')" "30m" [] false TestRuntime.person
                   [] ∅ 1800 OutNotSlice _ _)).
  - discriminate.
  - reflexivity.
Defined.

(** C1.  [QueryColumns] (and [Query]) of the key/value pipeline, given the
    explicit column list [Name] for a destination whose struct has the
    fields [Name] and [Age]: what follows [GET] in the argument list is the
    field list of the struct, [Name,Age], not the explicit list. *)
Theorem QueryColumns_asks_for_all_fields :
  KeyValue.argv
    (@KeyValue.QueryColumns (TestRuntime.printing "") "Win32_Process" ["Name"]
       (OutSlice false TestRuntime.person []) ∅)
  = Some ["PATH"; "Win32_Process"; "GET"; "Name,Age"; "/format:rawxml"; "/VALUE"]
  /\ KeyValue.argv
       (@KeyValue.QueryColumnsWithTimeout (TestRuntime.printing "") "Win32_Process"
          ["Name"] (OutSlice false TestRuntime.person []) "30m" ∅)
     = Some ["PATH"; "Win32_Process"; "GET"; "Name"; "/format:rawxml"; "/VALUE"].
Proof. split; reflexivity. Qed.

(** ** The scanning loop of the key/value pipeline *)

Section ScanLoop.
Context `{Runtime}.
Import Framing.

Implicit Types (T : StructType) (st : KeyValue.Loop) (text class : string).

Lemma scanLoop_app class T st (l1 l2 : list string) :
  KeyValue.scanLoop class T st (l1 ++ l2)
  = match KeyValue.scanLoop class T st l1 with
    | inl ret => inl ret
    | inr st' => KeyValue.scanLoop class T st' l2
    end.
Proof.
  revert st. induction l1 as [|x l1 IH]; intros st; simpl; [done|].
  destruct (KeyValue.scanStep class T st x); [done|]. apply IH.
Qed.

Lemma scanLoop_snoc class T st (l : list string) text :
  KeyValue.scanLoop class T st (l ++ [text])
  = match KeyValue.scanLoop class T st l with
    | inl ret => inl ret
    | inr st' => KeyValue.scanStep class T st' text
    end.
Proof.
  rewrite scanLoop_app. destruct (KeyValue.scanLoop class T st l); [done|].
  simpl. by destruct (KeyValue.scanStep _ _ _ _).
Qed.

Lemma set_fatal T name val (item : Record_) e :
  fatalError T name = Some e ->
  KeyValue.set T name val item = (item, Some e).
Proof.
  unfold fatalError, KeyValue.set.
  destruct (FieldByName T name) as [[i []]|]; intros [= <-]; done.
Qed.

(** Away from the fatal cases [set] either assigns the field, or finds
    that the value does not convert, reports it and leaves the struct as it
    was. *)
Lemma set_not_fatal T name val (item : Record_) :
  fatalError T name = None ->
  (exists item', KeyValue.set T name val item = (item', None))
  \/ (exists i k, FieldByName T name = Some (i, k) /\ coercionFails k val
        /\ KeyValue.set T name val item
           = (item, Some (errorString (unableToSet k val)))).
Proof.
  unfold fatalError, KeyValue.set.
  destruct (FieldByName T name) as [[i k]|] eqn:E; [|done].
  destruct k as [|bits|bits|bits| |t]; intros Hf; [| | | | |done].
  - left. by eexists.
  - unfold KeyValue.setIntN. destruct (strconv.ParseInt val bits) eqn:P.
    + left. by eexists.
    + right. by exists i, (KInt bits).
  - unfold KeyValue.setUintN. destruct (strconv.ParseUint val bits) eqn:P.
    + left. by eexists.
    + right. by exists i, (KUint bits).
  - unfold KeyValue.setFloatN. destruct (ParseFloat val bits) eqn:P.
    + left. by eexists.
    + right. by exists i, (KFloat bits).
  - unfold KeyValue.setBool. destruct (strconv.ParseBool val) eqn:P.
    + left. by eexists.
    + right. by exists i, KBool.
Qed.

(** The three kinds of line the loop tells apart. *)
Lemma scanStep_blank class T st text :
  blank text = true ->
  KeyValue.scanStep class T st text
  = inr (if KeyValue.contentStarted st
         then {| KeyValue.result := KeyValue.result st ++ [KeyValue.item st];
                 KeyValue.item := New T;
                 KeyValue.contentStarted := false;
                 KeyValue.line := KeyValue.line st + 1;
                 KeyValue.recordErrors := KeyValue.recordErrors st |}
         else st).
Proof.
  unfold blank, KeyValue.scanStep. intros ->. by destruct (KeyValue.contentStarted st).
Qed.

Lemma scanStep_ignored class T st text :
  blank text = false -> rawField text = None ->
  KeyValue.scanStep class T st text = inr (started st).
Proof.
  unfold blank, rawField, KeyValue.scanStep. intros ->.
  destruct (strings.SplitN2 _ _) as [|a [|b [|c l]]]; try done.
  by destruct (String.eqb (strings.TrimSpace b) "").
Qed.

Lemma scanStep_field class T st text name val :
  blank text = false -> rawField text = Some (name, val) ->
  KeyValue.scanStep class T st text
  = match KeyValue.set T name val (KeyValue.item st) with
    | (item', None) =>
        inr {| KeyValue.result := KeyValue.result st; KeyValue.item := item';
               KeyValue.contentStarted := true; KeyValue.line := KeyValue.line st;
               KeyValue.recordErrors := KeyValue.recordErrors st |}
    | (item', Some err) =>
        if KeyValue.isFatal err then inl (KeyValue.recordErrors st, err)
        else
          inr {| KeyValue.result := KeyValue.result st; KeyValue.item := item';
                 KeyValue.contentStarted := true; KeyValue.line := KeyValue.line st;
                 KeyValue.recordErrors :=
                   KeyValue.recordErrors st
                     ++ [{| KeyValue.Class := class; KeyValue.Field := name;
                            KeyValue.Line := KeyValue.line st;
                            KeyValue.Message := KeyValue.Error err |}] |}
    end.
Proof.
  unfold blank, rawField, KeyValue.scanStep. intros ->.
  destruct (strings.SplitN2 _ _) as [|a [|b [|c l]]]; try done.
  destruct (String.eqb (strings.TrimSpace b) ""); [done|].
  by intros [= -> ->].
Qed.

End ScanLoop.

(** ** The loop against the framing *)

Section Refinement.
Context `{Runtime}.
Import Framing.

Implicit Types (T : StructType) (st : KeyValue.Loop) (text class : string).

Lemma rawField_blank text : blank text = true -> rawField text = None.
Proof.
  unfold blank, rawField. intros Hb. apply String.eqb_eq in Hb. by rewrite Hb.
Qed.

Lemma rawRow_snoc (b : list string) text :
  rawRow (b ++ [text]) = rawRow b ++ option_list (rawField text).
Proof.
  unfold rawRow. rewrite omap_app. simpl. by destruct (rawField text).
Qed.

Lemma decodeRow_snoc T (row : list (string * string)) f :
  decodeRow T (row ++ [f]) = assign T (decodeRow T row) f.
Proof. unfold decodeRow. by rewrite fold_left_app. Qed.

Lemma tracks_start T : tracks T (KeyValue.startLoop T) ([], []).
Proof. by repeat split. Qed.

Lemma tracks_step class T st fs text st' :
  tracks T st fs ->
  KeyValue.scanStep class T st text = inr st' ->
  tracks T st' (frameStep fs text).
Proof.
  destruct fs as [closed cur]. intros (Hres & Hitem & Hcs & Hline) Hstep.
  cbn [fst snd] in *. unfold frameStep.
  destruct (blank text) eqn:Hb.
  - rewrite scanStep_blank in Hstep by done. injection Hstep as <-.
    rewrite Hcs. destruct cur as [|l cur]; [by repeat split|].
    repeat split; cbn [fst snd KeyValue.result KeyValue.item KeyValue.contentStarted
                         KeyValue.line negb bool_decide].
    + by rewrite map_app, Hres, Hitem.
    + rewrite Hline, length_app. simpl. lia.
  - assert (negb (bool_decide (cur ++ [text] = [])) = true) as Hne.
    { by destruct cur. }
    destruct (rawField text) as [[name val]|] eqn:Hf.
    + rewrite (scanStep_field _ _ _ _ name val) in Hstep by done.
      assert (decodeRow T (rawRow (cur ++ [text]))
              = fst (KeyValue.set T name val (KeyValue.item st))) as Hnew.
      { rewrite rawRow_snoc, Hf. simpl. rewrite decodeRow_snoc, <- Hitem. done. }
      destruct (KeyValue.set T name val (KeyValue.item st)) as [item' [e|]].
      * destruct (KeyValue.isFatal e); [done|]. injection Hstep as <-.
        by repeat split.
      * injection Hstep as <-. by repeat split.
    + rewrite scanStep_ignored in Hstep by done. injection Hstep as <-.
      repeat split; try done.
      cbn [fst snd started KeyValue.item]. rewrite rawRow_snoc, Hf. simpl.
      by rewrite app_nil_r.
Qed.

Lemma tracks_loop class T (lines : list string) st fs st' :
  tracks T st fs ->
  KeyValue.scanLoop class T st lines = inr st' ->
  tracks T st' (fold_left frameStep lines fs).
Proof.
  revert st fs. induction lines as [|text lines IH]; intros st fs Ht Hl; simpl in *.
  - by injection Hl as <-.
  - destruct (KeyValue.scanStep class T st text) as [|st1] eqn:Hs; [done|].
    eapply IH; [|done]. by eapply tracks_step.
Qed.

(** Once the loop is over the destination receives the records of the
    blocks, in order. *)
Lemma finish_rows class T (lines : list string) st :
  KeyValue.scanLoop class T (KeyValue.startLoop T) lines = inr st ->
  KeyValue.finish st = map (decodeRow T) (rows lines)
  /\ KeyValue.line st = Z.of_nat (length (KeyValue.result st)) + 1.
Proof.
  intros Hl. pose proof (tracks_loop _ _ _ _ _ _ (tracks_start T) Hl) as Ht.
  unfold rows, blocks, frameState, KeyValue.finish.
  destruct (fold_left frameStep lines ([], [])) as [closed cur].
  destruct Ht as (Hres & Hitem & Hcs & Hline). cbn [fst snd] in *.
  split.
  - rewrite Hcs, Hres, Hitem. destruct cur; simpl.
    + by rewrite map_map.
    + by rewrite !map_app, map_map.
  - by rewrite Hline, Hres, length_map.
Qed.

End Refinement.

(** ** When the loop returns early *)

Section Abort.
Context `{Runtime}.
Import Framing.

Implicit Types (T : StructType) (st : KeyValue.Loop) (text class : string).

Lemma fatalError_isFatal T name e :
  fatalError T name = Some e -> KeyValue.isFatal e = true.
Proof.
  unfold fatalError. destruct (FieldByName T name) as [[i []]|]; by intros [= <-].
Qed.

Lemma scanStep_fatal class T st text name val e :
  rawField text = Some (name, val) ->
  fatalError T name = Some e ->
  KeyValue.scanStep class T st text = inl (KeyValue.recordErrors st, e).
Proof.
  intros Hf He.
  assert (blank text = false) as Hb.
  { destruct (blank text) eqn:Hb; [|done]. apply rawField_blank in Hb. congruence. }
  rewrite (scanStep_field _ _ _ _ name val) by done.
  rewrite (set_fatal _ _ _ _ e He). by rewrite (fatalError_isFatal _ _ _ He).
Qed.

Lemma scanStep_continues class T st text :
  (forall name val, rawField text = Some (name, val) -> fatalError T name = None) ->
  exists st', KeyValue.scanStep class T st text = inr st'.
Proof.
  intros Hwf. destruct (blank text) eqn:Hb.
  - rewrite scanStep_blank by done. by eexists.
  - destruct (rawField text) as [[name val]|] eqn:Hf.
    + rewrite (scanStep_field _ _ _ _ name val) by done.
      destruct (set_not_fatal T name val (KeyValue.item st) (Hwf _ _ eq_refl))
        as [[item' ->]|(i & k & _ & _ & ->)]; by eexists.
    + rewrite scanStep_ignored by done. by eexists.
Qed.

(** The loop returns early only on a line that assigns a field without a
    setter or a field that does not exist, with that error and the
    recoverable errors gathered so far. *)
Lemma scanStep_abort class T st text errs e :
  KeyValue.scanStep class T st text = inl (errs, e) ->
  errs = KeyValue.recordErrors st
  /\ exists name val, rawField text = Some (name, val) /\ fatalError T name = Some e.
Proof.
  intros Hs. destruct (rawField text) as [[name val]|] eqn:Hf.
  - destruct (fatalError T name) as [e'|] eqn:He.
    + rewrite (scanStep_fatal _ _ _ _ name val e') in Hs by done.
      simplify_eq. eauto.
    + destruct (scanStep_continues class T st text) as [st' Hst'].
      { intros n v Hn. rewrite Hf in Hn. by simplify_eq. }
      congruence.
  - destruct (scanStep_continues class T st text) as [st' Hst']; [|congruence].
    intros n v Hn. congruence.
Qed.

Lemma scanLoop_continues class T st (lines : list string) :
  Forall (fun text => forall name val,
            rawField text = Some (name, val) -> fatalError T name = None) lines ->
  exists st', KeyValue.scanLoop class T st lines = inr st'.
Proof.
  intros Hall. revert st. induction Hall as [|text lines Hx _ IH]; intros st; simpl.
  - by eexists.
  - destruct (scanStep_continues class T st text Hx) as [st1 ->]. apply IH.
Qed.

Lemma covered_step text fs x : covered text fs -> covered text (frameStep fs x).
Proof.
  destruct fs as [closed cur]. unfold covered, frameStep. cbn [fst snd].
  intros [Hc|(b & Hb & Ht)]; destruct (blank x), cur as [|l cur]; cbn [fst snd].
  - done.
  - right. exists (l :: cur). split; [|done]. apply in_or_app. right. by left.
  - left. by apply in_or_app; left.
  - left. by apply in_or_app; left.
  - right. eauto.
  - right. exists b. split; [|done]. apply in_or_app. by left.
  - right. eauto.
  - right. eauto.
Qed.

Lemma covered_fold text (lines : list string) fs :
  covered text fs -> covered text (fold_left frameStep lines fs).
Proof.
  revert fs. induction lines as [|x lines IH]; intros fs Hc; simpl; [done|].
  apply IH. by apply covered_step.
Qed.

Lemma in_blocks text (lines : list string) :
  In text lines -> blank text = false ->
  exists b, In b (blocks lines) /\ In text b.
Proof.
  intros Hin Hb.
  assert (forall fs, covered text (fold_left frameStep lines fs)) as Hcov.
  { induction lines as [|x lines IH]; intros fs; [done|]. simpl.
    destruct Hin as [->|Hin]; [|by apply IH].
    apply covered_fold. destruct fs as [closed cur].
    unfold covered, frameStep. rewrite Hb. left. cbn [snd].
    apply in_or_app. right. by left. }
  specialize (Hcov ([], [])). unfold blocks, frameState.
  destruct (fold_left frameStep lines ([], [])) as [closed cur].
  destruct Hcov as [Hc|(b & Hb' & Ht)]; cbn [fst snd] in *.
  - destruct cur as [|l cur]; [done|]. exists (l :: cur). split; [|done].
    apply in_or_app. right. by left.
  - exists b. split; [|done]. destruct cur; [done|]. apply in_or_app. by left.
Qed.

Lemma wellFormed_lines T (lines : list string) :
  Forall (wellFormed T) (rows lines) ->
  Forall (fun text => forall name val,
            rawField text = Some (name, val) -> fatalError T name = None) lines.
Proof.
  intros Hwf. apply List.Forall_forall. intros text Hin name val Hf.
  assert (blank text = false) as Hb.
  { destruct (blank text) eqn:Hb; [|done]. apply rawField_blank in Hb. congruence. }
  destruct (in_blocks _ _ Hin Hb) as (b & Hbin & Htb).
  rewrite List.Forall_forall in Hwf.
  specialize (Hwf (rawRow b)). unfold rows in Hwf.
  specialize (Hwf (in_map rawRow _ _ Hbin)).
  unfold wellFormed in Hwf. rewrite List.Forall_forall in Hwf.
  apply (Hwf (name, val)). apply list_elem_of_In. unfold rawRow.
  apply list_elem_of_omap. exists text. split; [|done]. by apply list_elem_of_In.
Qed.

End Abort.

(** ** The two pipelines from the output of the process on *)

Section Decoding.
Context `{Runtime} `{!Csvutil}.
Import Framing Table.

Lemma KeyValue_decode (class : string) (columns : list string) (where_ : string)
    (ptr : bool) (T : StructType) (elems : list Record_) (timeout : string)
    (fieldCache : gmap string string) (d : Duration) (text : string) :
  ParseDuration timeout = Some d ->
  answers (Some d) text ->
  let o := KeyValue.QueryWithTimeout class columns where_ (OutSlice ptr T elems)
             timeout fieldCache in
  match KeyValue.scanLoop class T (KeyValue.startLoop T) (bufio.ScanLines text) with
  | inl (errs, e) =>
      KeyValue.dest o = OutSlice ptr T elems
      /\ KeyValue.errors o = errs /\ KeyValue.err o = Some e
  | inr st =>
      KeyValue.dest o = OutSlice ptr T (KeyValue.finish st)
      /\ KeyValue.errors o = KeyValue.recordErrors st /\ KeyValue.err o = None
  end.
Proof.
  intros Hd Ha o. subst o. unfold KeyValue.QueryWithTimeout.
  destruct (KeyValue.getList columns T fieldCache) as [cols fc'].
  rewrite Hd, Ha. cbn [RunError Stderr Stdout String.eqb negb].
  destruct (KeyValue.scanLoop _ _ _ _) as [[errs e]|st]; done.
Qed.

Lemma Delimited_decode (class : string) (columns : list string) (where_ : string)
    (ptr : bool) (T : StructType) (elems : list Record_) (text : string) :
  answers None text ->
  let o := Delimited.Query class columns where_ (OutSlice ptr T elems) in
  match table text with
  | [] => Delimited.dest o = OutSlice ptr T elems /\ Delimited.err o = Some EOF
  | header :: records =>
      match Delimited.decodeLoop T header records [] with
      | inl e => Delimited.dest o = OutSlice ptr T elems /\ Delimited.err o = Some e
      | inr result => Delimited.dest o = OutSlice ptr T result /\ Delimited.err o = None
      end
  end.
Proof.
  intros Ha o. subst o. unfold Delimited.Query, table.
  rewrite Ha. cbn [RunError Stderr Stdout String.eqb negb].
  destruct (map _ _) as [|header records]; [done|].
  destruct (Delimited.decodeLoop _ _ _ _); done.
Qed.

(** Records that are decoded or skipped never end the loop: the result is
    the structs of the decoded ones, appended in the order of the
    records. *)
Lemma decodeLoop_passes (T : StructType) (header : list string)
    (records : list (list string)) (result : list Record_) :
  Forall (passes T header) records ->
  Delimited.decodeLoop T header records result
  = inr (result ++ decoded T header records).
Proof.
  intros Hall. revert result.
  induction Hall as [|r records Hr _ IH]; intros result; simpl.
  - by rewrite app_nil_r.
  - unfold passes in Hr. unfold decoded. simpl.
    destruct (Delimited.Decode T header r) as [e|i].
    + destruct Hr as [t ->]. apply IH.
    + rewrite IH. by rewrite <- app_assoc.
Qed.

(** A record of the wrong shape is passed over: the loop does what it does
    without it. *)
Lemma decodeLoop_misshapen (T : StructType) (header : list string)
    (before after : list (list string)) (bad : list string) (result : list Record_) :
  ~ shaped header bad ->
  Delimited.decodeLoop T header (before ++ bad :: after) result
  = Delimited.decodeLoop T header (before ++ after) result.
Proof.
  intros Hbad. revert result.
  induction before as [|r before IH]; intros result; simpl.
  - unfold Delimited.Decode. unfold shaped in Hbad.
    by rewrite bool_decide_eq_false_2.
  - destruct (Delimited.Decode T header r) as [[]|i]; try done; apply IH.
Qed.

(** The loop ends in an error only with the error of a record of the right
    shape, one that is neither [io.EOF] nor a [csv.ParseError]. *)
Lemma decodeLoop_abort (T : StructType) (header : list string)
    (records : list (list string)) (result : list Record_) (e : error) :
  Delimited.decodeLoop T header records result = inl e ->
  exists r, In r records /\ shaped header r /\ unmarshal T header r = inl e
            /\ e <> EOF /\ forall t, e <> csvParseError t.
Proof.
  revert result. induction records as [|r records IH]; intros result; simpl; [done|].
  destruct (Delimited.Decode T header r) as [e'|i] eqn:Hd.
  - assert (shaped header r -> unmarshal T header r = inl e') as Hu.
    { unfold Delimited.Decode, shaped in *. intros Hs.
      by rewrite bool_decide_eq_true_2 in Hd. }
    assert (~ shaped header r -> e' = Delimited.ErrFieldCount) as Hn.
    { unfold Delimited.Decode, shaped in *. intros Hs.
      rewrite bool_decide_eq_false_2 in Hd by done. congruence. }
    destruct (decide (length r = length header)) as [Hs|Hs].
    + destruct e';
        try (intros [= <-]; exists r;
             split; [by left|]; split; [done|]; split; [by apply Hu|];
             split; [done|]; intros t; done).
      * done.
      * intros Hl. destruct (IH _ Hl) as (r' & ? & ?). exists r'. split; [by right|done].
    + rewrite (Hn Hs). simpl. intros Hl.
      destruct (IH _ Hl) as (r' & ? & ?). exists r'. split; [by right|done].
  - intros Hl. destruct (IH _ Hl) as (r' & ? & ?). exists r'. split; [by right|done].
Qed.

End Decoding.

(** ** Order and number of the decoded records *)

Section Order.
Context `{Runtime} `{!Csvutil}.
Import Framing Table.

Lemma decoded_all (T : StructType) (header : list string) (records : list (list string)) :
  Forall (fun r => exists s, Delimited.Decode T header r = inr s) records ->
  Forall2 (fun r s => Delimited.Decode T header r = inr s) records
    (decoded T header records).
Proof.
  induction 1 as [|r records [s Hs] _ IH]; unfold decoded; simpl.
  - constructor.
  - rewrite Hs. by constructor.
Qed.

Lemma passes_decoded (T : StructType) (header r : list string) :
  (exists s, Delimited.Decode T header r = inr s) -> passes T header r.
Proof. unfold passes. by intros [s ->]. Qed.

Lemma frameState_snoc (lines : list string) (text : string) :
  frameState (lines ++ [text]) = frameStep (frameState lines) text.
Proof. unfold frameState. by rewrite fold_left_app. Qed.

(** The blocks hold the non-blank lines, all of them, in order, and no
    block is empty. *)
Lemma frameState_lines (lines : list string) :
  concat (fst (frameState lines)) ++ snd (frameState lines)
  = filter (fun t => blank t = false) lines
  /\ Forall (fun b => b <> []) (fst (frameState lines)).
Proof.
  induction lines as [|x lines [IHc IHn]] using rev_ind; [by split|].
  rewrite frameState_snoc, filter_app.
  destruct (frameState lines) as [closed cur]. unfold frameStep. cbn [fst snd] in *.
  destruct (blank x) eqn:Hb.
  - rewrite filter_cons_False, filter_nil by (by rewrite Hb).
    destruct cur as [|l cur]; cbn [fst snd].
    + split; [|done]. by rewrite <- IHc, !app_nil_r.
    + split.
      * rewrite concat_app, <- IHc. simpl. by rewrite !app_nil_r.
      * apply Forall_app. split; [done|]. by constructor.
  - rewrite filter_cons_True, filter_nil by done. cbn [fst snd].
    split; [|done]. by rewrite <- IHc, app_assoc.
Qed.

Lemma blocks_lines (lines : list string) :
  concat (blocks lines) = filter (fun t => blank t = false) lines
  /\ Forall (fun b => b <> []) (blocks lines).
Proof.
  destruct (frameState_lines lines) as [Hc Hn]. unfold blocks.
  destruct (frameState lines) as [closed cur]. cbn [fst snd] in *.
  destruct cur as [|l cur].
  - by rewrite app_nil_r in Hc.
  - split.
    + rewrite concat_app, <- Hc. simpl. by rewrite app_nil_r.
    + apply Forall_app. split; [done|]. by constructor.
Qed.

(** A non-blank last line leaves its block open, and the open block counts
    as the last block. *)
Lemma blocks_open (lines : list string) (text : string) :
  blank text = false ->
  blocks (lines ++ [text])
  = fst (frameState lines) ++ [snd (frameState lines) ++ [text]].
Proof.
  intros Hb. unfold blocks. rewrite frameState_snoc.
  destruct (frameState lines) as [closed cur]. unfold frameStep. rewrite Hb.
  cbn [fst snd]. by destruct cur.
Qed.

(** A blank line after it changes nothing. *)
Lemma blocks_terminated (lines : list string) (text blank_ : string) :
  blank text = false -> blank blank_ = true ->
  blocks ((lines ++ [text]) ++ [blank_]) = blocks (lines ++ [text]).
Proof.
  intros Hb Hb'. rewrite (blocks_open _ _ Hb). unfold blocks.
  rewrite !frameState_snoc.
  destruct (frameState lines) as [closed cur]. unfold frameStep. rewrite Hb, Hb'.
  cbn [fst snd]. by destruct cur.
Qed.

End Order.


(** ** Rows in progress, lines that assign nothing, early returns *)

Section Lines.
Context `{Runtime}.
Import Framing Table.

Implicit Types (T : StructType) (st : KeyValue.Loop) (text class : string).

(** A line without separator, or with an empty value, has no raw field. *)
Lemma rawField_none text :
  length (strings.SplitN2 (strings.TrimSpace text) "=") <> 2%nat
  \/ (exists name rest,
        strings.SplitN2 (strings.TrimSpace text) "=" = [name; rest]
        /\ strings.TrimSpace rest = "") ->
  rawField text = None.
Proof.
  unfold rawField. intros [Hlen|(name & rest & -> & ->)]; [|done].
  by destruct (strings.SplitN2 _ _) as [|a [|b [|c l]]].
Qed.

Lemma scanLoop_ignored class T st (lines : list string) :
  Forall (fun t => blank t = false /\ rawField t = None) lines ->
  lines <> [] ->
  KeyValue.scanLoop class T st lines = inr (started st).
Proof.
  intros Hall. revert st. induction Hall as [|t lines [Hb Hf] Hrest IH]; [done|].
  intros st _. simpl. rewrite scanStep_ignored by done.
  destruct lines as [|t' lines]; [done|].
  rewrite IH by done. by destruct st.
Qed.

(** Where an early return comes from: the lines before it were scanned
    without one, and the step on the next line returned. *)
Lemma scanLoop_abort class T st (lines : list string) errs e :
  KeyValue.scanLoop class T st lines = inl (errs, e) ->
  exists (before : list string) text (after : list string) st',
    lines = before ++ text :: after
    /\ KeyValue.scanLoop class T st before = inr st'
    /\ KeyValue.scanStep class T st' text = inl (errs, e).
Proof.
  revert st. induction lines as [|t lines IH]; intros st; simpl; [done|].
  destruct (KeyValue.scanStep class T st t) as [ret|st1] eqn:Hs.
  - intros [= ->]. by exists [], t, lines, st.
  - intros Hl. destruct (IH _ Hl) as (before & text & after & st' & -> & Hb & Hstep).
    exists (t :: before), text, after, st'. repeat split; try done.
    simpl. by rewrite Hs.
Qed.

(** The first line that assigns a fatal field ends the call. *)
Lemma scanLoop_first_fatal class T st (before after : list string) text name val e :
  Forall (fun t => forall n v, rawField t = Some (n, v) -> fatalError T n = None)
    before ->
  rawField text = Some (name, val) ->
  fatalError T name = Some e ->
  exists st',
    KeyValue.scanLoop class T st before = inr st'
    /\ KeyValue.scanLoop class T st (before ++ text :: after)
       = inl (KeyValue.recordErrors st', e).
Proof.
  intros Hb Hf He. destruct (scanLoop_continues class T st before Hb) as [st' Hst'].
  exists st'. split; [done|]. rewrite scanLoop_app, Hst'. simpl.
  by rewrite (scanStep_fatal _ _ _ _ name val e).
Qed.

(** Some line that assigns a fatal field: the call ends with a fatal
    error, that of the first such line. *)
Lemma scanLoop_some_fatal class T st (lines : list string) text name val e :
  In text lines ->
  rawField text = Some (name, val) ->
  fatalError T name = Some e ->
  exists errs e', KeyValue.scanLoop class T st lines = inl (errs, e')
                  /\ KeyValue.isFatal e' = true.
Proof.
  intros Hin Hf He. revert st. induction lines as [|t lines IH]; intros st; [done|].
  simpl. destruct (KeyValue.scanStep class T st t) as [[errs e']|st1] eqn:Hs.
  - exists errs, e'. split; [done|].
    destruct (scanStep_abort _ _ _ _ _ _ Hs) as (_ & n & v & _ & Hfe).
    by eapply fatalError_isFatal.
  - destruct Hin as [->|Hin]; [|by apply IH].
    rewrite (scanStep_fatal _ _ _ _ name val e) in Hs by done. done.
Qed.

End Lines.

(** C7.  Key/value pipeline: when the scanned lines end in a non-blank
    line, the block in progress (the open block of the lines before,
    with that line) is decoded and stored as the last element of the
    destination, after the records of the closed blocks; a blank line at
    the end would frame the same rows. *)
Theorem trailing_row_emitted `{Runtime}
    (class : string) (columns : list string) (where_ : string) (ptr : bool)
    (T : StructType) (elems : list Record_) (timeout : string)
    (fieldCache : gmap string string) (d : Duration) (text : string)
    (lines : list string) (final : string) :
  ParseDuration timeout = Some d ->
  Table.answers (Some d) text ->
  bufio.ScanLines text = lines ++ [final] ->
  Framing.blank final = false ->
  Forall (Framing.wellFormed T) (Framing.rows (lines ++ [final])) ->
  KeyValue.err (KeyValue.QueryWithTimeout class columns where_ (OutSlice ptr T elems)
                  timeout fieldCache) = None
  /\ KeyValue.dest (KeyValue.QueryWithTimeout class columns where_
                      (OutSlice ptr T elems) timeout fieldCache)
     = OutSlice ptr T
         (map (fun b => Framing.decodeRow T (Framing.rawRow b))
              (fst (Framing.frameState lines))
          ++ [Framing.decodeRow T
                (Framing.rawRow (snd (Framing.frameState lines) ++ [final]))])
  /\ Framing.blocks ((lines ++ [final]) ++ [""]) = Framing.blocks (lines ++ [final]).
Proof.
  intros Hd Ha Hscan Hb Hwf.
  pose proof (KeyValue_decode class columns where_ ptr T elems timeout fieldCache
                d text Hd Ha) as Hq. cbv zeta in Hq. rewrite Hscan in Hq.
  destruct (scanLoop_continues class T (KeyValue.startLoop T) (lines ++ [final])
              (wellFormed_lines T _ Hwf)) as [st Hst].
  rewrite Hst in Hq. destruct Hq as (Hdest & _ & Herr).
  destruct (finish_rows _ _ _ _ Hst) as [Hfin _].
  split; [done|]. split.
  - rewrite Hdest, Hfin. unfold Framing.rows.
    by rewrite (blocks_open _ _ Hb), !map_app, map_map.
  - by apply blocks_terminated.
Qed.

Lemma trailing_row_emitted_witness :
  KeyValue.err (@KeyValue.QueryWithTimeout TestRuntime.examples "Win32_Process" [] ""
                  (OutSlice false TestRuntime.person []) "30m" ∅) = None
  /\ KeyValue.dest (@KeyValue.QueryWithTimeout TestRuntime.examples "Win32_Process" []
                      "" (OutSlice false TestRuntime.person []) "30m" ∅)
     = OutSlice false TestRuntime.person [[VString "Alice"; VInt 30]; [VString "Bob"; VInt 0]]
  /\ Framing.blocks
       ((["Name=Alice"; "Age=30"; ""; "Name=Bob"] ++ ["Age=not-a-number"]) ++ [""])
     = Framing.blocks (["Name=Alice"; "Age=30"; ""; "Name=Bob"] ++ ["Age=not-a-number"]).
Proof.
  refine (@trailing_row_emitted TestRuntime.examples "Win32_Process" [] "" false
            TestRuntime.person [] "30m" ∅ 1800 TestRuntime.kvText
            ["Name=Alice"; "Age=30"; ""; "Name=Bob"] "Age=not-a-number" _ _ _ _ _).
  - reflexivity.
  - intros query. reflexivity.
  - reflexivity.
  - reflexivity.
  - vm_compute. repeat constructor.
Defined.

(** C9, as the code has it.  Key/value pipeline: a non-blank line without
    a [=] separator, or whose value is empty after trimming, assigns no
    field, reports no error and never ends the call, but it does start
    the row: the loop goes on with [contentStarted] set and nothing else
    changed, so a block that consists only of such lines yields one record
    with every field at its zero value. *)
Theorem ignored_line_starts_row `{Runtime}
    (class : string) (T : StructType) (st : KeyValue.Loop) (text : string)
    (lines : list string) :
  Framing.blank text = false ->
  (length (strings.SplitN2 (strings.TrimSpace text) "=") <> 2%nat
   \/ exists name rest,
        strings.SplitN2 (strings.TrimSpace text) "=" = [name; rest]
        /\ strings.TrimSpace rest = "") ->
  Forall (fun t => Framing.blank t = false /\ Framing.rawField t = None) lines ->
  KeyValue.scanStep class T st text
  = inr {| KeyValue.result := KeyValue.result st;
           KeyValue.item := KeyValue.item st;
           KeyValue.contentStarted := true;
           KeyValue.line := KeyValue.line st;
           KeyValue.recordErrors := KeyValue.recordErrors st |}
  /\ exists st',
       KeyValue.scanLoop class T (KeyValue.startLoop T) (text :: lines) = inr st'
       /\ KeyValue.finish st' = [New T]
       /\ KeyValue.recordErrors st' = [].
Proof.
  intros Hb Hshape Hall. pose proof (rawField_none text Hshape) as Hf.
  split.
  - by rewrite scanStep_ignored.
  - exists (Framing.started (KeyValue.startLoop T)). split; [|done].
    apply scanLoop_ignored; [|done]. by constructor.
Qed.

Lemma ignored_line_starts_row_witness :
  @KeyValue.scanStep (TestRuntime.printing "") "Win32_Process" TestRuntime.person
    (KeyValue.startLoop TestRuntime.person) "garbage"
  = inr {| KeyValue.result := [];
           KeyValue.item := [VString ""; VInt 0];
           KeyValue.contentStarted := true;
           KeyValue.line := 1;
           KeyValue.recordErrors := [] |}
  /\ exists st',
       @KeyValue.scanLoop (TestRuntime.printing "") "Win32_Process" TestRuntime.person
         (KeyValue.startLoop TestRuntime.person) ["garbage"; "Name="] = inr st'
       /\ KeyValue.finish st' = [[VString ""; VInt 0]]
       /\ KeyValue.recordErrors st' = [].
Proof.
  refine (@ignored_line_starts_row (TestRuntime.printing "") "Win32_Process"
            TestRuntime.person (KeyValue.startLoop TestRuntime.person) "garbage"
            ["Name="] _ _ _).
  - reflexivity.
  - left. vm_compute. discriminate.
  - repeat constructor.
Defined.

(** C9, as the claim has it, fails: a block made of one line without
    separator, and a block made of one line with an empty value, each put a
    record into the destination. *)
Lemma ignored_line_emits_row :
  Framing.rawField "garbage" = None
  /\ KeyValue.dest (@KeyValue.QueryWithTimeout (TestRuntime.printing "garbage")
                      "Win32_Process" [] "" (OutSlice false TestRuntime.person [])
                      "30m" ∅)
     = OutSlice false TestRuntime.person [[VString ""; VInt 0]]
  /\ Framing.rawField "Name=" = None
  /\ KeyValue.dest (@KeyValue.QueryWithTimeout (TestRuntime.printing "Name=")
                      "Win32_Process" [] "" (OutSlice false TestRuntime.person [])
                      "30m" ∅)
     = OutSlice false TestRuntime.person [[VString ""; VInt 0]].
Proof. repeat split; reflexivity. Qed.



(** ** Fields that a row leaves alone *)

Section Fields.
Context `{Runtime}.
Import Framing.

Lemma fieldFrom_lookup (fs : list (string * Kind)) (n : nat) (name : string)
    (i : nat) (k : Kind) :
  fieldFrom n fs name = Some (i, k) ->
  (n <= i)%nat /\ fs !! (i - n)%nat = Some (name, k).
Proof.
  revert n. induction fs as [|[x kx] fs IH]; intros n; simpl; [done|].
  destruct (String.eqb x name) eqn:E.
  - apply String.eqb_eq in E as ->. intros [= <- <-].
    split; [lia|]. by rewrite Nat.sub_diag.
  - intros Hf. destruct (IH _ Hf) as [Hle Hl]. split; [lia|].
    replace (i - n)%nat with (S (i - S n)) by lia. done.
Qed.

(** Two names that [FieldByName] resolves to the same position are the
    same name. *)
Lemma FieldByName_inj (T : StructType) (a b : string) (i : nat) (k k' : Kind) :
  FieldByName T a = Some (i, k) -> FieldByName T b = Some (i, k') -> a = b.
Proof.
  unfold FieldByName. intros Ha Hb.
  apply fieldFrom_lookup in Ha as [_ Ha]. apply fieldFrom_lookup in Hb as [_ Hb].
  congruence.
Qed.

Lemma New_lookup (T : StructType) (name : string) (i : nat) (k : Kind) :
  FieldByName T name = Some (i, k) -> New T !! i = Some (zeroValue k).
Proof.
  unfold FieldByName, New. intros Hf. apply fieldFrom_lookup in Hf as [_ Hf].
  rewrite Nat.sub_0_r in Hf.
  change (map (fun f => zeroValue (snd f)) (Fields T))
    with ((fun f => zeroValue (snd f)) <$> Fields T).
  by rewrite list_lookup_fmap, Hf.
Qed.

Lemma assign_other (T : StructType) (item : Record_) (f : string * string)
    (name : string) (i : nat) (k : Kind) :
  FieldByName T name = Some (i, k) -> fst f <> name ->
  assign T item f !! i = item !! i.
Proof.
  intros Hn Hne. unfold assign, KeyValue.set.
  destruct (FieldByName T (fst f)) as [[j kj]|] eqn:Hj; [|done].
  assert (j <> i) as Hji.
  { intros ->. apply Hne. by eapply FieldByName_inj. }
  destruct kj; simpl;
    unfold KeyValue.setString, KeyValue.setIntN, KeyValue.setUintN,
           KeyValue.setFloatN, KeyValue.setBool;
    repeat case_match; simpl; try done; by apply list_lookup_insert_ne.
Qed.

Lemma decodeRow_other (T : StructType) (row : list (string * string))
    (name : string) (i : nat) (k : Kind) :
  FieldByName T name = Some (i, k) ->
  Forall (fun f => fst f <> name) row ->
  decodeRow T row !! i = Some (zeroValue k).
Proof.
  intros Hn Hall. unfold decodeRow. rewrite <- (New_lookup T name i k Hn).
  generalize (New T). induction Hall as [|f row Hf _ IH]; intros item; simpl; [done|].
  rewrite IH. by eapply assign_other.
Qed.

End Fields.

(** C3, as the code has it.  Key/value pipeline: when a line assigns (with
    a value that is not empty) a name that is not a field of the
    destination struct, by exact match, the call ends with a fatal error
    and leaves the destination as the caller passed it, whatever rows were
    decoded before; the error is the unknown-field error of that line when
    no line before it is fatal. *)
Theorem unknown_field_aborts `{Runtime}
    (class : string) (columns : list string) (where_ : string) (ptr : bool)
    (T : StructType) (elems : list Record_) (timeout : string)
    (fieldCache : gmap string string) (d : Duration) (text : string)
    (before : list string) (line : string) (after : list string)
    (name val : string) :
  ParseDuration timeout = Some d ->
  Table.answers (Some d) text ->
  bufio.ScanLines text = before ++ line :: after ->
  Framing.rawField line = Some (name, val) ->
  FieldByName T name = None ->
  KeyValue.dest (KeyValue.QueryWithTimeout class columns where_ (OutSlice ptr T elems)
                   timeout fieldCache) = OutSlice ptr T elems
  /\ (exists e,
        KeyValue.err (KeyValue.QueryWithTimeout class columns where_
                        (OutSlice ptr T elems) timeout fieldCache) = Some e
        /\ KeyValue.isFatal e = true)
  /\ (Forall (fun t => forall n v,
                Framing.rawField t = Some (n, v) -> Framing.fatalError T n = None)
        before ->
      KeyValue.err (KeyValue.QueryWithTimeout class columns where_
                      (OutSlice ptr T elems) timeout fieldCache)
      = Some (FieldError name)).
Proof.
  intros Hd Ha Hscan Hf Hn.
  assert (Framing.fatalError T name = Some (FieldError name)) as He.
  { unfold Framing.fatalError. by rewrite Hn. }
  pose proof (KeyValue_decode class columns where_ ptr T elems timeout fieldCache
                d text Hd Ha) as Hq. cbv zeta in Hq. rewrite Hscan in Hq.
  destruct (scanLoop_some_fatal class T (KeyValue.startLoop T)
              (before ++ line :: after) line name val _
              ltac:(apply in_or_app; right; by left) Hf He)
    as (errs & e' & Hl & Hfatal).
  rewrite Hl in Hq. destruct Hq as (Hdest & _ & Herr).
  split; [done|]. split; [by exists e'|].
  intros Hbefore.
  destruct (scanLoop_first_fatal class T (KeyValue.startLoop T) before after line
              name val _ Hbefore Hf He) as (st' & _ & Hl').
  congruence.
Qed.

Lemma unknown_field_aborts_witness :
  KeyValue.dest
    (@KeyValue.QueryWithTimeout
       (TestRuntime.printing (TestRuntime.lines ["Name=Alice"; ""; "name=Bob"]))
       "Win32_Process" [] "" (OutSlice false TestRuntime.person []) "30m" ∅)
  = OutSlice false TestRuntime.person []
  /\ KeyValue.err
       (@KeyValue.QueryWithTimeout
          (TestRuntime.printing (TestRuntime.lines ["Name=Alice"; ""; "name=Bob"]))
          "Win32_Process" [] "" (OutSlice false TestRuntime.person []) "30m" ∅)
     = Some (FieldError "name").
Proof.
  destruct (@unknown_field_aborts
              (TestRuntime.printing (TestRuntime.lines ["Name=Alice"; ""; "name=Bob"]))
              "Win32_Process" [] "" false TestRuntime.person [] "30m" ∅ 1800
              (TestRuntime.lines ["Name=Alice"; ""; "name=Bob"])
              ["Name=Alice"; ""] "name=Bob" [] "name" "Bob")
    as (Hdest & _ & Herr).
  - reflexivity.
  - intros query. reflexivity.
  - reflexivity.
  - reflexivity.
  - reflexivity.
  - split; [exact Hdest|]. apply Herr.
    repeat constructor; intros n v; vm_compute; intros [= <- <-]; reflexivity.
Defined.

(** C3, as the claim has it, fails: the unknown field [Bogus] ends the
    call, and the destination, passed in with one element, still has it. *)
Lemma unknown_field_destination_kept :
  Framing.rawField "Bogus=1" = Some ("Bogus", "1")
  /\ @FieldByName TestRuntime.person "Bogus" = None
  /\ KeyValue.err
       (@KeyValue.QueryWithTimeout (TestRuntime.printing "Bogus=1") "Win32_Process" []
          "" (OutSlice false TestRuntime.person [[VString "Eve"; VInt 1]]) "30m" ∅)
     = Some (FieldError "Bogus")
  /\ KeyValue.dest
       (@KeyValue.QueryWithTimeout (TestRuntime.printing "Bogus=1") "Win32_Process" []
          "" (OutSlice false TestRuntime.person [[VString "Eve"; VInt 1]]) "30m" ∅)
     = OutSlice false TestRuntime.person [[VString "Eve"; VInt 1]]
  /\ KeyValue.dest
       (@KeyValue.QueryWithTimeout (TestRuntime.printing "Bogus=1") "Win32_Process" []
          "" (OutSlice false TestRuntime.person [[VString "Eve"; VInt 1]]) "30m" ∅)
     <> OutSlice false TestRuntime.person [].
Proof. repeat split; try reflexivity. discriminate. Qed.

(** C4, as the code has it.  Key/value pipeline: a line that assigns to an
    integer, unsigned, float or boolean field a value that does not parse
    or does not fit adds exactly one recoverable error, with the class, the
    name of the field and the number of the row being filled (one more than
    the rows stored so far); the struct is left as it was, so the field
    keeps the value it had, which is the zero value when no earlier line of
    the row assigned it; and the loop goes on with the lines that follow. *)
Theorem coercion_failure_recorded `{Runtime}
    (class : string) (T : StructType) (before : list string) (text : string)
    (after : list string) (st : KeyValue.Loop) (name val : string) (i : nat)
    (k : Kind) :
  KeyValue.scanLoop class T (KeyValue.startLoop T) before = inr st ->
  Framing.rawField text = Some (name, val) ->
  FieldByName T name = Some (i, k) ->
  Framing.coercionFails k val ->
  KeyValue.scanStep class T st text
  = inr {| KeyValue.result := KeyValue.result st;
           KeyValue.item := KeyValue.item st;
           KeyValue.contentStarted := true;
           KeyValue.line := KeyValue.line st;
           KeyValue.recordErrors :=
             KeyValue.recordErrors st
               ++ [{| KeyValue.Class := class; KeyValue.Field := name;
                      KeyValue.Line := Z.of_nat (length (KeyValue.result st)) + 1;
                      KeyValue.Message := unableToSet k val |}] |}
  /\ KeyValue.scanLoop class T (KeyValue.startLoop T) (before ++ text :: after)
     = KeyValue.scanLoop class T
         {| KeyValue.result := KeyValue.result st;
            KeyValue.item := KeyValue.item st;
            KeyValue.contentStarted := true;
            KeyValue.line := KeyValue.line st;
            KeyValue.recordErrors :=
              KeyValue.recordErrors st
                ++ [{| KeyValue.Class := class; KeyValue.Field := name;
                       KeyValue.Line := Z.of_nat (length (KeyValue.result st)) + 1;
                       KeyValue.Message := unableToSet k val |}] |}
         after
  /\ (Forall (fun f => fst f <> name)
        (Framing.rawRow (snd (Framing.frameState before))) ->
      KeyValue.item st !! i = Some (zeroValue k)).
Proof.
  intros Hl Hf Hn Hfail.
  assert (Framing.blank text = false) as Hb.
  { destruct (Framing.blank text) eqn:Hb; [|done].
    apply rawField_blank in Hb. congruence. }
  assert (Framing.fatalError T name = None) as Hnf.
  { unfold Framing.fatalError. rewrite Hn. by destruct k. }
  destruct (finish_rows _ _ _ _ Hl) as [_ Hline].
  assert (KeyValue.scanStep class T st text
          = inr {| KeyValue.result := KeyValue.result st;
                   KeyValue.item := KeyValue.item st;
                   KeyValue.contentStarted := true;
                   KeyValue.line := KeyValue.line st;
                   KeyValue.recordErrors :=
                     KeyValue.recordErrors st
                       ++ [{| KeyValue.Class := class; KeyValue.Field := name;
                              KeyValue.Line := Z.of_nat (length (KeyValue.result st)) + 1;
                              KeyValue.Message := unableToSet k val |}] |}) as Hstep.
  { rewrite (scanStep_field _ _ _ _ name val) by done.
    destruct (set_not_fatal T name val (KeyValue.item st) Hnf)
      as [[item' Hset]|(i' & k' & Hn' & _ & Hset)].
    - exfalso. revert Hset. unfold KeyValue.set. rewrite Hn.
      unfold KeyValue.setIntN, KeyValue.setUintN, KeyValue.setFloatN,
             KeyValue.setBool.
      destruct k; simpl in Hfail; try done; by rewrite Hfail.
    - rewrite Hset. simpl. rewrite Hn in Hn'. injection Hn' as <- <-.
      by rewrite Hline. }
  split; [done|]. split.
  - rewrite scanLoop_app, Hl. simpl. by rewrite Hstep.
  - intros Hother.
    pose proof (tracks_loop _ _ _ _ _ _ (tracks_start T) Hl) as (_ & Hitem & _).
    rewrite Hitem. by eapply decodeRow_other.
Qed.

Lemma coercion_failure_recorded_witness :
  @KeyValue.scanStep (TestRuntime.printing "") "Win32_Process" TestRuntime.person
    {| KeyValue.result := [[VString "Alice"; VInt 30]];
       KeyValue.item := [VString "Bob"; VInt 0];
       KeyValue.contentStarted := true;
       KeyValue.line := 2;
       KeyValue.recordErrors := [] |}
    "Age=not-a-number"
  = inr {| KeyValue.result := [[VString "Alice"; VInt 30]];
           KeyValue.item := [VString "Bob"; VInt 0];
           KeyValue.contentStarted := true;
           KeyValue.line := 2;
           KeyValue.recordErrors :=
             [{| KeyValue.Class := "Win32_Process"; KeyValue.Field := "Age";
                 KeyValue.Line := 2;
                 KeyValue.Message := "Unable to set field type not-a-number" |}] |}.
Proof.
  refine (proj1 (@coercion_failure_recorded (TestRuntime.printing "") "Win32_Process"
                   TestRuntime.person ["Name=Alice"; "Age=30"; ""; "Name=Bob"]
                   "Age=not-a-number" [] _ "Age" "not-a-number" 1%nat (KInt 64)
                   _ _ _ _)).
  - reflexivity.
  - reflexivity.
  - reflexivity.
  - reflexivity.
Defined.

(** C4, as the claim has it, fails: [Age=abc] does not parse, one error is
    recorded for it, and the field [Age] of the record is 30, the value an
    earlier line of the same row gave it, not the zero value. *)
Lemma failed_field_not_zero :
  @Framing.coercionFails (TestRuntime.printing "") (KInt 64) "abc"
  /\ KeyValue.dest
       (@KeyValue.QueryWithTimeout
          (TestRuntime.printing (TestRuntime.lines ["Age=30"; "Age=abc"]))
          "Win32_Process" [] "" (OutSlice false TestRuntime.person []) "30m" ∅)
     = OutSlice false TestRuntime.person [[VString ""; VInt 30]]
  /\ KeyValue.errors
       (@KeyValue.QueryWithTimeout
          (TestRuntime.printing (TestRuntime.lines ["Age=30"; "Age=abc"]))
          "Win32_Process" [] "" (OutSlice false TestRuntime.person []) "30m" ∅)
     = [{| KeyValue.Class := "Win32_Process"; KeyValue.Field := "Age";
           KeyValue.Line := 1; KeyValue.Message := "Unable to set field type abc" |}]
  /\ [VString ""; VInt 30] !! 1%nat <> Some (@zeroValue (TestRuntime.printing "") (KInt 64)).
Proof. repeat split; try reflexivity. discriminate. Qed.

(** ** The text handed to the CSV reader *)

Section Source.
Context `{Runtime} `{!Csvutil}.
Import Framing Table.

Lemma append_nil_r (s : string) : s +:+ "" = s.
Proof. induction s as [|c s IH]; [done|]. by rewrite <- IH at 2. Qed.

Lemma append_assoc (a b c : string) : (a +:+ b) +:+ c = a +:+ (b +:+ c).
Proof.
  induction a as [|x a IH]; [done|].
  change (String x ((a +:+ b) +:+ c) = String x (a +:+ (b +:+ c))). by rewrite IH.
Qed.

Lemma RemoveAll_append (a b : string) (q : ascii) :
  strings.RemoveAll (a +:+ b) q = strings.RemoveAll a q +:+ strings.RemoveAll b q.
Proof.
  induction a as [|x a IH]; [done|].
  change (strings.RemoveAll (String x (a +:+ b)) q
          = strings.RemoveAll (String x a) q +:+ strings.RemoveAll b q).
  simpl. rewrite IH. by destruct (Ascii.eqb x q).
Qed.

Lemma RemoveAll_idem (a : string) (q : ascii) :
  strings.RemoveAll (strings.RemoveAll a q) q = strings.RemoveAll a q.
Proof.
  induction a as [|x a IH]; [done|]. simpl.
  destruct (Ascii.eqb x q) eqn:E; [done|]. simpl. by rewrite E, IH.
Qed.

(** What the builder holds after the loop: the lines that are not blank,
    each without any of its quote characters and with a line feed. *)
Lemma writeLine_fold (lines : list string) (sb : string) :
  fold_left Delimited.writeLine lines sb
  = sb +:+ foldr String.append ""
             (map (fun s => strings.RemoveAll s "034" +:+ String "010" "")
                  (filter (fun s => blank s = false) lines)).
Proof.
  revert sb. induction lines as [|l lines IH]; intros sb; simpl.
  - by rewrite append_nil_r.
  - rewrite IH. unfold Delimited.writeLine.
    destruct (String.eqb (strings.TrimSpace l) "") eqn:E; simpl.
    + rewrite filter_cons_False; [done|]. unfold blank. by rewrite E.
    + rewrite filter_cons_True by done. simpl. by rewrite !append_assoc.
Qed.

Lemma RemoveAll_source (lines : list string) :
  strings.RemoveAll
    (foldr String.append ""
       (map (fun s => strings.RemoveAll s "034" +:+ String "010" "") lines)) "034"
  = foldr String.append ""
      (map (fun s => strings.RemoveAll s "034" +:+ String "010" "") lines).
Proof.
  induction lines as [|l lines IH]; [done|]. simpl.
  by rewrite !RemoveAll_append, RemoveAll_idem, IH.
Qed.

End Source.

(** C6, as the code has it.  Delimited pipeline: before the CSV reader
    sees it, the output loses its blank lines and every quote character of
    every other line, wherever in the line it stands, so no quote
    character is left; and the header [Name,Age] followed by
    ["Carol","41"] decodes to the single record with [Name] Carol and [Age]
    41. *)
Theorem quotes_removed_everywhere `{Runtime}
    (class : string) (columns : list string) (where_ : string) (ptr : bool)
    (elems : list Record_) (text : string) :
  Table.answers None TestRuntime.csvText ->
  Delimited.buildSource text
  = foldr String.append ""
      (map (fun s => strings.RemoveAll s "034" +:+ String "010" "")
           (filter (fun s => Framing.blank s = false) (bufio.ScanLines text)))
  /\ strings.RemoveAll (Delimited.buildSource text) "034" = Delimited.buildSource text
  /\ Delimited.dest
       (@Delimited.Query _ scalarCsvutil class columns where_
          (OutSlice ptr TestRuntime.person elems))
     = OutSlice ptr TestRuntime.person [[VString "Carol"; VInt 41]]
  /\ Delimited.err
       (@Delimited.Query _ scalarCsvutil class columns where_
          (OutSlice ptr TestRuntime.person elems))
     = None.
Proof.
  intros Ha.
  assert (Delimited.buildSource text
          = foldr String.append ""
              (map (fun s => strings.RemoveAll s "034" +:+ String "010" "")
                   (filter (fun s => Framing.blank s = false) (bufio.ScanLines text))))
    as Hsrc.
  { unfold Delimited.buildSource. by rewrite writeLine_fold. }
  split; [done|]. split.
  - rewrite Hsrc. apply RemoveAll_source.
  - pose proof (@Delimited_decode _ scalarCsvutil class columns where_ ptr
                  TestRuntime.person elems TestRuntime.csvText Ha) as Hq.
    cbv zeta in Hq.
    change (Table.table TestRuntime.csvText) with [["Name"; "Age"]; ["Carol"; "41"]] in Hq.
    exact Hq.
Qed.

Lemma quotes_removed_everywhere_witness :
  Delimited.dest
    (@Delimited.Query TestRuntime.examples scalarCsvutil "Win32_Process"
       ["Name"; "Age"] "" (OutSlice false TestRuntime.person []))
  = OutSlice false TestRuntime.person [[VString "Carol"; VInt 41]].
Proof.
  refine (proj1 (proj2 (proj2
            (@quotes_removed_everywhere TestRuntime.examples "Win32_Process"
               ["Name"; "Age"] "" false [] "" _)))).
  intros query. reflexivity.
Defined.

(** C6, as the claim has it, fails: the quote character in the middle of a
    line is removed as well, where stripping the two ends would keep it. *)
Lemma interior_quote_removed :
  Delimited.buildSource (String "a" (String "034" "b")) = String "a" (String "b" (String "010" ""))
  /\ Table.trimQuotes (String "a" (String "034" "b")) = String "a" (String "034" "b")
  /\ Delimited.buildSource (String "a" (String "034" "b"))
     <> Table.trimQuotes (String "a" (String "034" "b")) +:+ String "010" "".
Proof. repeat split; try reflexivity. discriminate. Qed.


(** ** The end-to-end example of the key/value pipeline *)

Example key_value_example :
  KeyValue.dest (@KeyValue.QueryAll TestRuntime.examples "Win32_Process"
                   (OutSlice false TestRuntime.person []) ∅)
  = OutSlice false TestRuntime.person [[VString "Alice"; VInt 30]; [VString "Bob"; VInt 0]]
  /\ KeyValue.errors (@KeyValue.QueryAll TestRuntime.examples "Win32_Process"
                        (OutSlice false TestRuntime.person []) ∅)
     = [{| KeyValue.Class := "Win32_Process"; KeyValue.Field := "Age";
           KeyValue.Line := 2;
           KeyValue.Message := "Unable to set field type not-a-number" |}]
  /\ KeyValue.err (@KeyValue.QueryAll TestRuntime.examples "Win32_Process"
                     (OutSlice false TestRuntime.person []) ∅) = None
  /\ KeyValue.cache (@KeyValue.QueryAll TestRuntime.examples "Win32_Process"
                       (OutSlice false TestRuntime.person []) ∅) !! "person"
     = Some "Name,Age".
Proof. repeat split; reflexivity. Qed.

(** * Further properties of the package *)

(** ** What [set] writes *)

Section Setters.
Context `{Runtime}.
Import Framing Typing.

Lemma digit_range (c : ascii) (d : Z) : strconv.digit c = Some d -> 0 <= d <= 9.
Proof.
  unfold strconv.digit.
  destruct (48 <=? Z.of_N (N_of_ascii c)) eqn:E1; [|done].
  destruct (Z.of_N (N_of_ascii c) <=? 57) eqn:E2; [|done].
  simpl. intros [= <-]. lia.
Qed.

Lemma digits_nonneg (s : string) (acc n : Z) :
  strconv.digits acc s = Some n -> 0 <= acc -> 0 <= n.
Proof.
  revert acc. induction s as [|c s IH]; intros acc; simpl.
  - intros [= <-]. done.
  - destruct (strconv.digit c) as [d|] eqn:Hd; [|done].
    intros Hn Hacc. apply (IH _ Hn). apply digit_range in Hd. lia.
Qed.

(** [strconv.ParseInt] and [strconv.ParseUint] only return values of the
    requested width. *)
Lemma ParseInt_range (s : string) (bits n : Z) :
  0 < bits -> strconv.ParseInt s bits = Some n ->
  - 2 ^ (bits - 1) <= n <= 2 ^ (bits - 1) - 1.
Proof.
  intros Hb. unfold strconv.ParseInt. destruct s as [|c s]; [done|].
  assert (0 < 2 ^ (bits - 1)) by (apply Z.pow_pos_nonneg; lia).
  destruct (if Ascii.eqb c "+" || Ascii.eqb c "-" then s else String c s)
    as [|c' body]; [done|].
  destruct (strconv.digits 0 (String c' body)) as [un|] eqn:Hd; [|done].
  apply digits_nonneg in Hd; [|done].
  destruct (Ascii.eqb c "-"); simpl.
  - destruct (2 ^ (bits - 1) <? un) eqn:E; [done|]. intros [= <-]. lia.
  - destruct (2 ^ (bits - 1) <=? un) eqn:E; [done|]. intros [= <-]. lia.
Qed.

Lemma ParseUint_range (s : string) (bits n : Z) :
  strconv.ParseUint s bits = Some n -> 0 <= n <= 2 ^ bits - 1.
Proof.
  unfold strconv.ParseUint. destruct s as [|c s]; [done|].
  destruct (strconv.digits 0 (String c s)) as [un|] eqn:Hd; [|done].
  apply digits_nonneg in Hd; [|done].
  destruct (un <=? 2 ^ bits - 1) eqn:E; [|done]. intros [= <-]. lia.
Qed.

(** The shapes of what [set] returns. *)
Lemma set_cases (T : StructType) (name val : string) (item : Record_) :
  (exists e, KeyValue.set T name val item = (item, Some e))
  \/ (exists i k v,
        FieldByName T name = Some (i, k)
        /\ KeyValue.set T name val item = (<[i := v]> item, None)
        /\ (validKind k -> hasKind k v)
        /\ (k = KString -> v = VString val)).
Proof.
  unfold KeyValue.set.
  destruct (FieldByName T name) as [[i k]|] eqn:Hf; [|left; by eexists].
  destruct k as [|bits|bits|bits| |t].
  - right. exists i, KString, (VString val). by split_and!.
  - unfold KeyValue.setIntN. destruct (strconv.ParseInt val bits) as [n|] eqn:P.
    + right. exists i, (KInt bits), (VInt n). split_and!; try done.
      intros Hb. by apply (ParseInt_range val).
    + left. by eexists.
  - unfold KeyValue.setUintN. destruct (strconv.ParseUint val bits) as [n|] eqn:P.
    + right. exists i, (KUint bits), (VUint n). split_and!; try done.
      intros _. by apply (ParseUint_range val).
    + left. by eexists.
  - unfold KeyValue.setFloatN. destruct (ParseFloat val bits) as [x|] eqn:P.
    + right. exists i, (KFloat bits), (VFloat x). by split_and!.
    + left. by eexists.
  - unfold KeyValue.setBool. destruct (strconv.ParseBool val) as [b|] eqn:P.
    + right. exists i, KBool, (VBool b). by split_and!.
    + left. by eexists.
  - left. by eexists.
Qed.

Lemma FieldByName_lookup (T : StructType) (name : string) (i : nat) (k : Kind) :
  FieldByName T name = Some (i, k) -> Fields T !! i = Some (name, k).
Proof.
  unfold FieldByName. intros Hf. apply fieldFrom_lookup in Hf as [_ Hf].
  by rewrite Nat.sub_0_r in Hf.
Qed.

Lemma validType_field (T : StructType) (i : nat) (name : string) (k : Kind) :
  validType T -> Fields T !! i = Some (name, k) -> validKind k.
Proof.
  unfold validType. intros Hv Hl.
  apply (Forall_lookup_1 _ _ _ _ Hv Hl).
Qed.

Lemma New_wellTyped (T : StructType) : validType T -> wellTyped T (New T).
Proof.
  unfold validType, wellTyped, New. induction 1 as [|[n k] fs Hk _ IH]; simpl.
  - constructor.
  - constructor; [|done]. destruct k; simpl in *; try done; lia.
Qed.

Lemma set_wellTyped (T : StructType) (name val : string) (item : Record_) :
  validType T -> wellTyped T item ->
  wellTyped T (fst (KeyValue.set T name val item)).
Proof.
  intros Hv Hw.
  destruct (set_cases T name val item) as [[e ->]|(i & k & v & Hf & -> & Hk & _)];
    [done|].
  simpl. apply FieldByName_lookup in Hf.
  unfold wellTyped. rewrite <- (list_insert_id (Fields T) i (name, k) Hf).
  apply Forall2_insert; [done|]. simpl. apply Hk. by eapply validType_field.
Qed.

End Setters.

(** ** What the scanning loop keeps true *)

Section Invariants.
Context `{Runtime}.
Import Framing Typing Table.

Implicit Types (T : StructType) (st : KeyValue.Loop) (text class : string).

(** A property that every round keeps holds of the state the loop ends
    in. *)
Lemma scanLoop_invariant class T (P : KeyValue.Loop -> Prop) (lines : list string)
    st st' :
  (forall st0 text st1,
     P st0 -> KeyValue.scanStep class T st0 text = inr st1 -> P st1) ->
  P st -> KeyValue.scanLoop class T st lines = inr st' -> P st'.
Proof.
  intros Hstep. revert st. induction lines as [|text lines IH]; intros st Hp; simpl.
  - by intros [= <-].
  - destruct (KeyValue.scanStep class T st text) as [|st1] eqn:Hs; [done|].
    apply IH. by eapply Hstep.
Qed.

(** The three ways a round goes on, seen from the state before. *)
Lemma scanStep_next class T st text st' :
  KeyValue.scanStep class T st text = inr st' ->
  (blank text = true
   /\ st' = if KeyValue.contentStarted st
            then {| KeyValue.result := KeyValue.result st ++ [KeyValue.item st];
                    KeyValue.item := New T;
                    KeyValue.contentStarted := false;
                    KeyValue.line := KeyValue.line st + 1;
                    KeyValue.recordErrors := KeyValue.recordErrors st |}
            else st)
  \/ (blank text = false
      /\ exists name val,
           (rawField text = None \/ rawField text = Some (name, val))
           /\ st' = {| KeyValue.result := KeyValue.result st;
                       KeyValue.item :=
                         match rawField text with
                         | Some f => assign T (KeyValue.item st) f
                         | None => KeyValue.item st
                         end;
                       KeyValue.contentStarted := true;
                       KeyValue.line := KeyValue.line st;
                       KeyValue.recordErrors := KeyValue.recordErrors st |})
  \/ (blank text = false
      /\ exists name val i k,
           rawField text = Some (name, val)
           /\ FieldByName T name = Some (i, k)
           /\ coercionFails k val
           /\ st' = {| KeyValue.result := KeyValue.result st;
                       KeyValue.item := KeyValue.item st;
                       KeyValue.contentStarted := true;
                       KeyValue.line := KeyValue.line st;
                       KeyValue.recordErrors :=
                         KeyValue.recordErrors st
                           ++ [{| KeyValue.Class := class; KeyValue.Field := name;
                                  KeyValue.Line := KeyValue.line st;
                                  KeyValue.Message := unableToSet k val |}] |}).
Proof.
  intros Hs. destruct (blank text) eqn:Hb.
  - left. rewrite scanStep_blank in Hs by done. by injection Hs as <-.
  - destruct (rawField text) as [[name val]|] eqn:Hf.
    + rewrite (scanStep_field _ _ _ _ name val) in Hs by done.
      destruct (fatalError T name) as [e|] eqn:He.
      { rewrite (set_fatal _ _ _ _ e He), (fatalError_isFatal _ _ _ He) in Hs. done. }
      destruct (set_not_fatal T name val (KeyValue.item st) He)
        as [[item' Hset]|(i & k & Hn & Hfail & Hset)].
      * right. left. split; [done|]. exists name, val. split; [by right|].
        rewrite Hset in Hs. injection Hs as <-. unfold assign. simpl. by rewrite Hset.
      * right. right. split; [done|]. exists name, val, i, k.
        rewrite Hset in Hs. simpl in Hs. by injection Hs as <-.
    + right. left. split; [done|]. exists "", "". split; [by left|].
      rewrite scanStep_ignored in Hs by done. by injection Hs as <-.
Qed.

Lemma typedInv_step class T st text st' :
  validType T -> typedInv T st ->
  KeyValue.scanStep class T st text = inr st' -> typedInv T st'.
Proof.
  intros Hv [Hres Hitem] Hs.
  destruct (scanStep_next _ _ _ _ _ Hs)
    as [[_ ->]|[(_ & name & val & _ & ->)|(_ & name & val & i & k & _ & _ & _ & ->)]].
  - destruct (KeyValue.contentStarted st); [|done]. split; simpl.
    + apply Forall_app. split; [done|]. by constructor.
    + by apply New_wellTyped.
  - split; simpl; [done|]. destruct (rawField text) as [f|]; [|done].
    by apply set_wellTyped.
  - by split.
Qed.

Lemma attributed_weaken class T (b b' : Z) (e : KeyValue.RecordError) :
  b <= b' -> attributed class T b e -> attributed class T b' e.
Proof. intros Hb (Hc & Hl & Hf). split_and!; try done; lia. Qed.

Lemma ascending_snoc (errs : list KeyValue.RecordError) (x : KeyValue.RecordError) :
  ascending errs ->
  Forall (fun e => KeyValue.Line e <= KeyValue.Line x) errs ->
  ascending (errs ++ [x]).
Proof.
  intros Ha Hall i j a b Hij Hi Hj.
  apply lookup_app_Some in Hj as [Hj|[Hlen Hj]].
  - assert (i < length errs)%nat as Hil.
    { apply lookup_lt_Some in Hj. lia. }
    rewrite lookup_app_l in Hi by lia. exact (Ha i j a b Hij Hi Hj).
  - apply list_lookup_singleton_Some in Hj as [_ <-].
    apply lookup_app_Some in Hi as [Hi|[_ Hi]].
    + by apply (Forall_lookup_1 _ _ _ _ Hall Hi).
    + apply list_lookup_singleton_Some in Hi as [_ <-]. lia.
Qed.

Lemma coercionFails_convertible (k : Kind) (val : string) :
  coercionFails k val -> convertible k.
Proof. by destruct k. Qed.

Lemma errorsInv_step class T st text st' :
  errorsInv class T st ->
  KeyValue.scanStep class T st text = inr st' -> errorsInv class T st'.
Proof.
  intros (Hline & Hall & Hasc) Hs.
  destruct (scanStep_next _ _ _ _ _ Hs)
    as [[_ ->]|[(_ & name & val & _ & ->)
               |(_ & name & val & i & k & _ & Hf & Hfail & ->)]].
  - destruct (KeyValue.contentStarted st) eqn:Hc; [|done].
    unfold errorsInv, rowsStarted in *. simpl. rewrite Hc in Hall.
    rewrite length_app. simpl. split_and!; [lia| |done].
    eapply List.Forall_impl; [|exact Hall]. intros e. apply attributed_weaken. lia.
  - unfold errorsInv, rowsStarted in *. simpl. split_and!; [done| |done].
    eapply List.Forall_impl; [|exact Hall]. intros e. apply attributed_weaken.
    destruct (KeyValue.contentStarted st); lia.
  - assert (Forall (attributed class T (Z.of_nat (length (KeyValue.result st)) + 1))
              (KeyValue.recordErrors st)) as Hall'.
    { eapply List.Forall_impl; [|exact Hall]. intros e. apply attributed_weaken.
      unfold rowsStarted. destruct (KeyValue.contentStarted st); lia. }
    unfold errorsInv, rowsStarted in *. simpl. split_and!; [done| |].
    + apply Forall_app. split; [done|]. constructor; [|done].
      split_and!; simpl; [done|lia|lia|].
      exists i, k. split; [done|]. by eapply coercionFails_convertible.
    + apply ascending_snoc; [done|]. simpl.
      eapply List.Forall_impl; [|exact Hall']. intros e (_ & Hl & _). lia.
Qed.

Lemma errorsInv_start class T : errorsInv class T (KeyValue.startLoop T).
Proof. split_and!; [done|constructor|]. intros i j a b _ Hi. done. Qed.

Lemma typedInv_start T : validType T -> typedInv T (KeyValue.startLoop T).
Proof. intros Hv. split; [constructor|]. by apply New_wellTyped. Qed.

End Invariants.

Section Outcomes.
Context `{Runtime}.
Import Framing Typing Table.

(** What a call on well-formed surroundings returns was gathered by the
    loop: the recoverable errors are those of a state the loop went
    through, and on success the destination is filled from that state. *)
Lemma outcome_reached (class : string) (columns : list string) (where_ : string)
    (ptr : bool) (T : StructType) (elems : list Record_) (timeout : string)
    (fieldCache : gmap string string) (d : Duration) (text : string) :
  ParseDuration timeout = Some d ->
  answers (Some d) text ->
  exists (lines : list string) (st : KeyValue.Loop),
    KeyValue.scanLoop class T (KeyValue.startLoop T) lines = inr st
    /\ KeyValue.errors (KeyValue.QueryWithTimeout class columns where_
                          (OutSlice ptr T elems) timeout fieldCache)
       = KeyValue.recordErrors st
    /\ (KeyValue.err (KeyValue.QueryWithTimeout class columns where_
                        (OutSlice ptr T elems) timeout fieldCache) = None ->
        KeyValue.dest (KeyValue.QueryWithTimeout class columns where_
                         (OutSlice ptr T elems) timeout fieldCache)
        = OutSlice ptr T (KeyValue.finish st)).
Proof.
  intros Hd Ha.
  pose proof (KeyValue_decode class columns where_ ptr T elems timeout fieldCache
                d text Hd Ha) as Hq. cbv zeta in Hq.
  destruct (KeyValue.scanLoop class T (KeyValue.startLoop T) (bufio.ScanLines text))
    as [[errs e]|st] eqn:Hl.
  - destruct Hq as (_ & Herrs & Herr).
    destruct (scanLoop_abort _ _ _ _ _ _ Hl)
      as (before & line & after & st & _ & Hbefore & Hstep).
    destruct (scanStep_abort _ _ _ _ _ _ Hstep) as [-> _].
    exists before, st. split_and!; [done|done|]. congruence.
  - destruct Hq as (Hdest & Herrs & _). exists (bufio.ScanLines text), st. done.
Qed.

Lemma rowsStarted_finish (st : KeyValue.Loop) :
  rowsStarted st = Z.of_nat (length (KeyValue.finish st)).
Proof.
  unfold rowsStarted, KeyValue.finish. destruct (KeyValue.contentStarted st).
  - rewrite length_app. simpl. lia.
  - lia.
Qed.

End Outcomes.

(** X1.  [set] writes at most the field it is asked to: the struct keeps
    its number of fields, every other position keeps its value, and when
    an error is returned nothing is written at all; a text field is
    assigned the value as it is, and never fails. *)
Theorem set_writes_one_field `{Runtime}
    (T : StructType) (name val : string) (item : Record_) :
  length (fst (KeyValue.set T name val item)) = length item
  /\ (forall j : nat,
        (forall k, FieldByName T name <> Some (j, k)) ->
        fst (KeyValue.set T name val item) !! j = item !! j)
  /\ (snd (KeyValue.set T name val item) <> None ->
      fst (KeyValue.set T name val item) = item)
  /\ (forall i : nat,
        FieldByName T name = Some (i, KString) ->
        snd (KeyValue.set T name val item) = None
        /\ ((i < length item)%nat ->
            fst (KeyValue.set T name val item) !! i = Some (VString val))).
Proof.
  destruct (set_cases T name val item)
    as [[e He]|(i & k & v & Hf & Hset & _ & Hstr)].
  - rewrite He. simpl. split_and!; try done.
    intros i Hf. revert He. unfold KeyValue.set. rewrite Hf. done.
  - rewrite Hset. simpl. split_and!.
    + apply length_insert.
    + intros j Hj. apply list_lookup_insert_ne. intros ->. by apply (Hj k).
    + done.
    + intros i' Hf'. rewrite Hf in Hf'. injection Hf' as -> ->.
      split; [done|]. intros Hlt. rewrite (Hstr eq_refl).
      by apply list_lookup_insert_eq.
Qed.

(** X2.  Key/value pipeline: when the call succeeds, every record of the
    destination has one value per field of the struct, each of the kind of
    its field, and the integers lie within the range of their declared
    width. *)
Theorem decoded_records_typed `{Runtime}
    (class : string) (columns : list string) (where_ : string) (ptr : bool)
    (T : StructType) (elems : list Record_) (timeout : string)
    (fieldCache : gmap string string) (d : Duration) (text : string) :
  Typing.validType T ->
  ParseDuration timeout = Some d ->
  Table.answers (Some d) text ->
  KeyValue.err (KeyValue.QueryWithTimeout class columns where_ (OutSlice ptr T elems)
                  timeout fieldCache) = None ->
  exists out',
    KeyValue.dest (KeyValue.QueryWithTimeout class columns where_ (OutSlice ptr T elems)
                     timeout fieldCache) = OutSlice ptr T out'
    /\ Forall (Typing.wellTyped T) out'
    /\ Forall (fun r => length r = length (Fields T)) out'.
Proof.
  intros Hv Hd Ha Herr.
  destruct (outcome_reached class columns where_ ptr T elems timeout fieldCache d text
              Hd Ha) as (lines & st & Hl & _ & Hdest).
  exists (KeyValue.finish st). split; [by apply Hdest|].
  assert (Typing.typedInv T st) as [Hres Hitem].
  { apply (scanLoop_invariant class T (Typing.typedInv T) lines
             (KeyValue.startLoop T) st); [|by apply typedInv_start|done].
    intros st0 t st1. by apply typedInv_step. }
  assert (Forall (Typing.wellTyped T) (KeyValue.finish st)) as Hall.
  { unfold KeyValue.finish. destruct (KeyValue.contentStarted st); [|done].
    apply Forall_app. split; [done|]. by constructor. }
  split; [done|].
  eapply List.Forall_impl; [|exact Hall]. intros r Hr. symmetry.
  by eapply Forall2_length.
Qed.

Lemma decoded_records_typed_witness :
  exists out',
    KeyValue.dest (@KeyValue.QueryWithTimeout TestRuntime.examples "Win32_Process" [] ""
                     (OutSlice false TestRuntime.person []) "30m" ∅)
    = OutSlice false TestRuntime.person out'
    /\ Forall (@Typing.wellTyped TestRuntime.examples TestRuntime.person) out'
    /\ Forall (fun r => length r = length (Fields TestRuntime.person)) out'.
Proof.
  refine (@decoded_records_typed TestRuntime.examples "Win32_Process" [] "" false
            TestRuntime.person [] "30m" ∅ 1800 TestRuntime.kvText _ _ _ _).
  - repeat constructor.
  - reflexivity.
  - intros query. reflexivity.
  - reflexivity.
Defined.

(** X3.  Key/value pipeline: every recoverable error returned, also beside
    a fatal error, carries the class of the call, a row number of at least
    one and the name of a field of the struct whose kind is integer,
    unsigned, float or boolean (text fields never produce one); when the
    call succeeds, the row number is at most the number of records in the
    destination. *)
Theorem recoverable_errors_attributed `{Runtime}
    (class : string) (columns : list string) (where_ : string) (ptr : bool)
    (T : StructType) (elems : list Record_) (timeout : string)
    (fieldCache : gmap string string) (d : Duration) (text : string) :
  ParseDuration timeout = Some d ->
  Table.answers (Some d) text ->
  Forall (fun e =>
            KeyValue.Class e = class
            /\ 1 <= KeyValue.Line e
            /\ exists i k, FieldByName T (KeyValue.Field e) = Some (i, k)
                           /\ Typing.convertible k)
    (KeyValue.errors (KeyValue.QueryWithTimeout class columns where_
                        (OutSlice ptr T elems) timeout fieldCache))
  /\ (KeyValue.err (KeyValue.QueryWithTimeout class columns where_
                      (OutSlice ptr T elems) timeout fieldCache) = None ->
      exists out',
        KeyValue.dest (KeyValue.QueryWithTimeout class columns where_
                         (OutSlice ptr T elems) timeout fieldCache)
        = OutSlice ptr T out'
        /\ Forall (fun e => KeyValue.Line e <= Z.of_nat (length out'))
             (KeyValue.errors (KeyValue.QueryWithTimeout class columns where_
                                 (OutSlice ptr T elems) timeout fieldCache))).
Proof.
  intros Hd Ha.
  destruct (outcome_reached class columns where_ ptr T elems timeout fieldCache d text
              Hd Ha) as (lines & st & Hl & Herrs & Hdest).
  assert (Typing.errorsInv class T st) as (_ & Hall & _).
  { apply (scanLoop_invariant class T (Typing.errorsInv class T) lines
             (KeyValue.startLoop T) st); [|apply errorsInv_start|done].
    intros st0 t st1. apply errorsInv_step. }
  rewrite Herrs. split.
  - eapply List.Forall_impl; [|exact Hall]. intros e (Hc & Hline & Hf).
    split_and!; try done. lia.
  - intros Herr. exists (KeyValue.finish st). split; [by apply Hdest|].
    rewrite <- rowsStarted_finish.
    eapply List.Forall_impl; [|exact Hall]. intros e (_ & Hline & _). lia.
Qed.

Lemma recoverable_errors_attributed_witness :
  Forall (fun e =>
            KeyValue.Class e = "Win32_Process"
            /\ 1 <= KeyValue.Line e
            /\ exists i k, FieldByName TestRuntime.person (KeyValue.Field e) = Some (i, k)
                           /\ Typing.convertible k)
    (KeyValue.errors (@KeyValue.QueryWithTimeout TestRuntime.examples "Win32_Process" []
                        "" (OutSlice false TestRuntime.person []) "30m" ∅)).
Proof.
  refine (proj1 (@recoverable_errors_attributed TestRuntime.examples "Win32_Process" []
                   "" false TestRuntime.person [] "30m" ∅ 1800 TestRuntime.kvText _ _)).
  - reflexivity.
  - intros query. reflexivity.
Defined.

(** X4.  Key/value pipeline: the recoverable errors are returned in the
    order of the output, so their row numbers never decrease along the
    list. *)
Theorem recoverable_errors_in_row_order `{Runtime}
    (class : string) (columns : list string) (where_ : string) (ptr : bool)
    (T : StructType) (elems : list Record_) (timeout : string)
    (fieldCache : gmap string string) (d : Duration) (text : string)
    (i j : nat) (a b : KeyValue.RecordError) :
  ParseDuration timeout = Some d ->
  Table.answers (Some d) text ->
  (i <= j)%nat ->
  KeyValue.errors (KeyValue.QueryWithTimeout class columns where_
                     (OutSlice ptr T elems) timeout fieldCache) !! i = Some a ->
  KeyValue.errors (KeyValue.QueryWithTimeout class columns where_
                     (OutSlice ptr T elems) timeout fieldCache) !! j = Some b ->
  KeyValue.Line a <= KeyValue.Line b.
Proof.
  intros Hd Ha Hij Hi Hj.
  destruct (outcome_reached class columns where_ ptr T elems timeout fieldCache d text
              Hd Ha) as (lines & st & Hl & Herrs & _).
  assert (Typing.errorsInv class T st) as (_ & _ & Hasc).
  { apply (scanLoop_invariant class T (Typing.errorsInv class T) lines
             (KeyValue.startLoop T) st); [|apply errorsInv_start|done].
    intros st0 t st1. apply errorsInv_step. }
  rewrite Herrs in Hi, Hj. exact (Hasc i j a b Hij Hi Hj).
Qed.

Lemma recoverable_errors_in_row_order_witness :
  KeyValue.Line {| KeyValue.Class := "Win32_Process"; KeyValue.Field := "Age";
                   KeyValue.Line := 1;
                   KeyValue.Message := "Unable to set field type x" |}
  <= KeyValue.Line {| KeyValue.Class := "Win32_Process"; KeyValue.Field := "Age";
                      KeyValue.Line := 2;
                      KeyValue.Message := "Unable to set field type y" |}.
Proof.
  refine (@recoverable_errors_in_row_order
            (TestRuntime.printing (TestRuntime.lines ["Age=x"; ""; "Age=y"]))
            "Win32_Process" [] "" false TestRuntime.person [] "30m" ∅ 1800
            (TestRuntime.lines ["Age=x"; ""; "Age=y"]) 0%nat 1%nat _ _ _ _ _ _ _).
  - reflexivity.
  - intros query. reflexivity.
  - lia.
  - reflexivity.
  - reflexivity.
Defined.

(** ** The field cache *)

Section Cache.
Context `{Runtime}.

Lemma KeyValue_cache (class : string) (columns : list string) (where_ : string)
    (ptr : bool) (T : StructType) (elems : list Record_) (timeout : string)
    (fieldCache : gmap string string) :
  KeyValue.cache (KeyValue.QueryWithTimeout class columns where_ (OutSlice ptr T elems)
                    timeout fieldCache)
  = snd (KeyValue.getList columns T fieldCache).
Proof.
  unfold KeyValue.QueryWithTimeout.
  destruct (KeyValue.getList columns T fieldCache) as [cols fc'].
  destruct (ParseDuration timeout); [|done].
  destruct (RunError _); [done|].
  destruct (negb _); [done|].
  destruct (KeyValue.scanLoop _ _ _ _) as [[? ?]|?]; done.
Qed.

Lemma getList_cache (columns : list string) (T : StructType)
    (fieldCache : gmap string string) (key : string) :
  snd (KeyValue.getList columns T fieldCache) !! key
  = match columns, fieldCache !! TypeName T with
    | [], None =>
        if decide (TypeName T = key)
        then Some (strings.Join (map fst (Fields T)) ",")
        else fieldCache !! key
    | _, _ => fieldCache !! key
    end.
Proof.
  unfold KeyValue.getList. destruct columns as [|c columns]; [|done].
  destruct (fieldCache !! TypeName T) eqn:E; [done|]. simpl.
  by rewrite lookup_insert.
Qed.

End Cache.

(** X5.  The field cache only grows: whatever the call and its outcome,
    every entry the cache had is still there with the same value; a call
    with an explicit column list leaves the cache as it was; and a call
    with a struct destination and no column list leaves an entry for the
    name of the struct type, the one it found or else the comma-joined
    field names, and touches no other key. *)
Theorem fieldCache_only_grows `{Runtime}
    (class : string) (columns : list string) (where_ : string) (out : OutArg)
    (timeout : string) (fieldCache : gmap string string) :
  (forall key v,
     fieldCache !! key = Some v ->
     KeyValue.cache (KeyValue.QueryWithTimeout class columns where_ out timeout
                       fieldCache) !! key = Some v)
  /\ (columns <> [] ->
      KeyValue.cache (KeyValue.QueryWithTimeout class columns where_ out timeout
                        fieldCache) = fieldCache)
  /\ (forall ptr T elems,
        out = OutSlice ptr T elems -> columns = [] ->
        KeyValue.cache (KeyValue.QueryWithTimeout class columns where_ out timeout
                          fieldCache) !! TypeName T
        = Some (default (strings.Join (map fst (Fields T)) ",")
                  (fieldCache !! TypeName T))
        /\ forall key, key <> TypeName T ->
             KeyValue.cache (KeyValue.QueryWithTimeout class columns where_ out timeout
                               fieldCache) !! key = fieldCache !! key).
Proof.
  split_and!.
  - intros key v Hk. destruct out as [ptr T elems| |]; [|done..].
    rewrite KeyValue_cache, getList_cache.
    destruct columns; [|done]. destruct (fieldCache !! TypeName T) eqn:E; [done|].
    case_decide; [congruence|done].
  - intros Hc. destruct out as [ptr T elems| |]; [|done..].
    rewrite KeyValue_cache. by destruct columns.
  - intros ptr T elems -> ->. rewrite !KeyValue_cache. split.
    + rewrite getList_cache. destruct (fieldCache !! TypeName T) eqn:E; [done|].
      simpl. by rewrite decide_True.
    + intros key Hk. rewrite getList_cache.
      destruct (fieldCache !! TypeName T); [done|]. by rewrite decide_False.
Qed.

(** X6.  The cache is keyed by the name of the struct type alone: after a
    call for one struct type, a call for another struct type of the same
    name asks [wmic] for the fields of the first. *)
Theorem same_name_types_share_columns `{Runtime}
    (class1 where1 timeout1 class2 where2 timeout2 : string) (ptr1 ptr2 : bool)
    (T1 T2 : StructType) (elems1 elems2 : list Record_)
    (fieldCache : gmap string string) (d : Duration) :
  TypeName T1 = TypeName T2 ->
  fieldCache !! TypeName T1 = None ->
  ParseDuration timeout2 = Some d ->
  KeyValue.argv
    (KeyValue.QueryWithTimeout class2 [] where2 (OutSlice ptr2 T2 elems2) timeout2
       (KeyValue.cache
          (KeyValue.QueryWithTimeout class1 [] where1 (OutSlice ptr1 T1 elems1)
             timeout1 fieldCache)))
  = Some (["PATH"; class2] ++ KeyValue.whereTokens where2
            ++ ["GET"; strings.Join (map fst (Fields T1)) ",";
                "/format:rawxml"; "/VALUE"]).
Proof.
  intros Hname Hfresh Hd.
  rewrite (KeyValue_argv _ _ _ _ _ _ _ _ d Hd). do 4 f_equal.
  rewrite KeyValue_cache. unfold KeyValue.getList at 2. rewrite Hfresh. simpl.
  unfold KeyValue.getList. by rewrite <- Hname, lookup_insert_eq.
Qed.

Lemma same_name_types_share_columns_witness :
  KeyValue.argv
    (@KeyValue.QueryWithTimeout (TestRuntime.printing "") "Win32_Service" [] ""
       (OutSlice false {| TypeName := "person"; Fields := [("State", KString)] |} [])
       "30m"
       (KeyValue.cache
          (@KeyValue.QueryWithTimeout (TestRuntime.printing "") "Win32_Process" [] ""
             (OutSlice false TestRuntime.person []) "30m" ∅)))
  = Some ["PATH"; "Win32_Service"; "GET"; "Name,Age"; "/format:rawxml"; "/VALUE"].
Proof.
  refine (@same_name_types_share_columns (TestRuntime.printing "") "Win32_Process" ""
            "30m" "Win32_Service" "" "30m" false false TestRuntime.person
            {| TypeName := "person"; Fields := [("State", KString)] |} [] [] ∅ 1800
            _ _ _).
  - reflexivity.
  - reflexivity.
  - reflexivity.
Defined.

(** ** Fatal fields, blank lines and empty outputs *)

Section Edges.
Context `{Runtime} `{!Csvutil}.
Import Framing Table.

Lemma scanLoop_blank (class : string) (T : StructType) (lines : list string) :
  Forall (fun t => blank t = true) lines ->
  KeyValue.scanLoop class T (KeyValue.startLoop T) lines = inr (KeyValue.startLoop T).
Proof.
  induction 1 as [|t lines Hb _ IH]; simpl; [done|].
  by rewrite scanStep_blank.
Qed.

Lemma buildSource_blank (text : string) :
  Forall (fun t => blank t = true) (bufio.ScanLines text) ->
  Delimited.buildSource text = "".
Proof.
  intros Hall. unfold Delimited.buildSource. rewrite writeLine_fold.
  replace (filter (fun s => blank s = false) (bufio.ScanLines text)) with (@nil string);
    [done|].
  symmetry. induction Hall as [|t lines Hb _ IH]; [done|].
  rewrite filter_cons_False; [done|]. by rewrite Hb.
Qed.

(** The first record that [csvutil] refuses ends the loop, whatever was
    decoded before. *)
Lemma decodeLoop_first_error (T : StructType) (header : list string)
    (before after : list (list string)) (r : list string) (e : error)
    (result : list Record_) :
  Forall (passes T header) before ->
  Delimited.Decode T header r = inl e ->
  e <> EOF -> (forall t, e <> csvParseError t) ->
  Delimited.decodeLoop T header (before ++ r :: after) result = inl e.
Proof.
  intros Hall Hr Heof Hparse. revert result.
  induction Hall as [|x before Hx _ IH]; intros result; simpl.
  - rewrite Hr. destruct e; try done. by destruct (Hparse text).
  - unfold passes in Hx. destruct (Delimited.Decode T header x) as [e'|i].
    + destruct Hx as [t ->]. apply IH.
    + apply IH.
Qed.

End Edges.

(** X7.  Key/value pipeline: a line that assigns (with a value that is not
    empty) a field whose kind has no setter ends the call with the
    unsupported-type error, carrying the name of the field and of its
    kind, when no line before it is fatal; the destination is left as the
    caller passed it. *)
Theorem unsupported_type_aborts `{Runtime}
    (class : string) (columns : list string) (where_ : string) (ptr : bool)
    (T : StructType) (elems : list Record_) (timeout : string)
    (fieldCache : gmap string string) (d : Duration) (text : string)
    (before : list string) (line : string) (after : list string)
    (name val kind : string) (i : nat) :
  ParseDuration timeout = Some d ->
  Table.answers (Some d) text ->
  bufio.ScanLines text = before ++ line :: after ->
  Forall (fun t => forall n v,
            Framing.rawField t = Some (n, v) -> Framing.fatalError T n = None)
    before ->
  Framing.rawField line = Some (name, val) ->
  FieldByName T name = Some (i, KOther kind) ->
  KeyValue.err (KeyValue.QueryWithTimeout class columns where_ (OutSlice ptr T elems)
                  timeout fieldCache) = Some (UnsupportedTypeError name kind)
  /\ KeyValue.dest (KeyValue.QueryWithTimeout class columns where_
                      (OutSlice ptr T elems) timeout fieldCache)
     = OutSlice ptr T elems.
Proof.
  intros Hd Ha Hscan Hbefore Hf Hn.
  assert (Framing.fatalError T name = Some (UnsupportedTypeError name kind)) as He.
  { unfold Framing.fatalError. by rewrite Hn. }
  pose proof (KeyValue_decode class columns where_ ptr T elems timeout fieldCache
                d text Hd Ha) as Hq. cbv zeta in Hq. rewrite Hscan in Hq.
  destruct (scanLoop_first_fatal class T (KeyValue.startLoop T) before after line
              name val _ Hbefore Hf He) as (st' & _ & Hl).
  rewrite Hl in Hq. by destruct Hq as (Hdest & _ & Herr).
Qed.

Lemma unsupported_type_aborts_witness :
  KeyValue.err
    (@KeyValue.QueryWithTimeout
       (TestRuntime.printing (TestRuntime.lines ["Name=Alice"; "Tags=a,b"]))
       "Win32_Process" [] ""
       (OutSlice false
          {| TypeName := "tagged";
             Fields := [("Name", KString); ("Tags", KOther "slice")] |} [])
       "30m" ∅)
  = Some (UnsupportedTypeError "Tags" "slice")
  /\ KeyValue.dest
       (@KeyValue.QueryWithTimeout
          (TestRuntime.printing (TestRuntime.lines ["Name=Alice"; "Tags=a,b"]))
          "Win32_Process" [] ""
          (OutSlice false
             {| TypeName := "tagged";
                Fields := [("Name", KString); ("Tags", KOther "slice")] |} [])
          "30m" ∅)
     = OutSlice false
         {| TypeName := "tagged";
            Fields := [("Name", KString); ("Tags", KOther "slice")] |} [].
Proof.
  refine (@unsupported_type_aborts
            (TestRuntime.printing (TestRuntime.lines ["Name=Alice"; "Tags=a,b"]))
            "Win32_Process" [] "" false
            {| TypeName := "tagged";
               Fields := [("Name", KString); ("Tags", KOther "slice")] |}
            [] "30m" ∅ 1800 (TestRuntime.lines ["Name=Alice"; "Tags=a,b"])
            ["Name=Alice"] "Tags=a,b" [] "Tags" "a,b" "slice" 1%nat _ _ _ _ _ _).
  - reflexivity.
  - intros query. reflexivity.
  - reflexivity.
  - repeat constructor. intros n v. vm_compute. intros [= <- <-]. reflexivity.
  - reflexivity.
  - reflexivity.
Defined.

(** X8.  Key/value pipeline: blank lines that follow a blank line change
    nothing; however many blank lines separate two rows, the loop ends in
    the same state, or returns early with the same values. *)
Theorem repeated_blank_lines_ignored `{Runtime}
    (class : string) (T : StructType) (st : KeyValue.Loop)
    (before after : list string) (b b' : string) :
  Framing.blank b = true ->
  Framing.blank b' = true ->
  KeyValue.scanLoop class T st (before ++ b :: b' :: after)
  = KeyValue.scanLoop class T st (before ++ b :: after).
Proof.
  intros Hb Hb'. rewrite !scanLoop_app.
  destruct (KeyValue.scanLoop class T st before) as [ret|st1]; [done|].
  cbn [KeyValue.scanLoop]. rewrite (scanStep_blank _ _ st1 b) by done.
  rewrite scanStep_blank by done.
  destruct (KeyValue.contentStarted st1) eqn:E; simpl; by rewrite ?E.
Qed.

Lemma repeated_blank_lines_ignored_witness :
  @KeyValue.scanLoop (TestRuntime.printing "") "Win32_Process" TestRuntime.person
    (KeyValue.startLoop TestRuntime.person) (["Name=Alice"] ++ "" :: " " :: ["Name=Bob"])
  = @KeyValue.scanLoop (TestRuntime.printing "") "Win32_Process" TestRuntime.person
      (KeyValue.startLoop TestRuntime.person) (["Name=Alice"] ++ "" :: ["Name=Bob"]).
Proof.
  refine (@repeated_blank_lines_ignored (TestRuntime.printing "") "Win32_Process"
            TestRuntime.person (KeyValue.startLoop TestRuntime.person)
            ["Name=Alice"] ["Name=Bob"] "" " " _ _).
  - reflexivity.
  - reflexivity.
Defined.

(** X9.  Key/value pipeline: when the process prints nothing, or only
    blank lines, the call succeeds without errors and sets the destination
    to the empty slice, whatever it held before. *)
Theorem blank_output_empties_destination `{Runtime}
    (class : string) (columns : list string) (where_ : string) (ptr : bool)
    (T : StructType) (elems : list Record_) (timeout : string)
    (fieldCache : gmap string string) (d : Duration) (text : string) :
  ParseDuration timeout = Some d ->
  Table.answers (Some d) text ->
  Forall (fun t => Framing.blank t = true) (bufio.ScanLines text) ->
  KeyValue.dest (KeyValue.QueryWithTimeout class columns where_ (OutSlice ptr T elems)
                   timeout fieldCache) = OutSlice ptr T []
  /\ KeyValue.errors (KeyValue.QueryWithTimeout class columns where_
                        (OutSlice ptr T elems) timeout fieldCache) = []
  /\ KeyValue.err (KeyValue.QueryWithTimeout class columns where_
                     (OutSlice ptr T elems) timeout fieldCache) = None.
Proof.
  intros Hd Ha Hall.
  pose proof (KeyValue_decode class columns where_ ptr T elems timeout fieldCache
                d text Hd Ha) as Hq. cbv zeta in Hq.
  by rewrite (scanLoop_blank class T _ Hall) in Hq.
Qed.

Lemma blank_output_empties_destination_witness :
  KeyValue.dest
    (@KeyValue.QueryWithTimeout (TestRuntime.printing (TestRuntime.lines [""; " "; ""]))
       "Win32_Process" [] "" (OutSlice false TestRuntime.person [[VString "Eve"; VInt 1]])
       "30m" ∅)
  = OutSlice false TestRuntime.person [].
Proof.
  refine (proj1 (@blank_output_empties_destination
                   (TestRuntime.printing (TestRuntime.lines [""; " "; ""]))
                   "Win32_Process" [] "" false TestRuntime.person
                   [[VString "Eve"; VInt 1]] "30m" ∅ 1800
                   (TestRuntime.lines [""; " "; ""]) _ _ _)).
  - reflexivity.
  - intros query. reflexivity.
  - repeat constructor.
Defined.

(** X10.  Delimited pipeline: when the process prints nothing, or only
    blank lines, there is no header to read: the call returns [io.EOF] and
    leaves the destination as the caller passed it. *)
Theorem blank_output_is_EOF `{Runtime} `{!Csvutil}
    (class : string) (columns : list string) (where_ : string) (ptr : bool)
    (T : StructType) (elems : list Record_) (text : string) :
  Table.answers None text ->
  Forall (fun t => Framing.blank t = true) (bufio.ScanLines text) ->
  Delimited.err (Delimited.Query class columns where_ (OutSlice ptr T elems)) = Some EOF
  /\ Delimited.dest (Delimited.Query class columns where_ (OutSlice ptr T elems))
     = OutSlice ptr T elems.
Proof.
  intros Ha Hall.
  pose proof (Delimited_decode class columns where_ ptr T elems text Ha) as Hq.
  cbv zeta in Hq. unfold Table.table in Hq.
  rewrite (buildSource_blank text Hall) in Hq.
  change (map Delimited.csvFields (Delimited.csvLines "")) with (@nil (list string)) in Hq.
  by destruct Hq.
Qed.

Lemma blank_output_is_EOF_witness :
  Delimited.err
    (@Delimited.Query (TestRuntime.printing "") scalarCsvutil "Win32_Process" [] ""
       (OutSlice false TestRuntime.person [[VString "Eve"; VInt 1]]))
  = Some EOF
  /\ Delimited.dest
       (@Delimited.Query (TestRuntime.printing "") scalarCsvutil "Win32_Process" [] ""
          (OutSlice false TestRuntime.person [[VString "Eve"; VInt 1]]))
     = OutSlice false TestRuntime.person [[VString "Eve"; VInt 1]].
Proof.
  refine (@blank_output_is_EOF (TestRuntime.printing "") scalarCsvutil "Win32_Process"
            [] "" false TestRuntime.person [[VString "Eve"; VInt 1]] "" _ _).
  - intros query. reflexivity.
  - constructor.
Defined.

(** X11.  Delimited pipeline: a record of the right shape that [csvutil]
    refuses (with an error that is neither [io.EOF] nor a
    [csv.ParseError]) ends the call with that error when the records
    before it were decoded or skipped; the records already decoded are
    dropped, the destination stays as the caller passed it. *)
Theorem conversion_error_aborts `{Runtime} `{!Csvutil}
    (class : string) (columns : list string) (where_ : string) (ptr : bool)
    (T : StructType) (elems : list Record_) (csv : string) (header : list string)
    (before : list (list string)) (r : list string) (after : list (list string))
    (e : error) :
  Table.answers None csv ->
  Table.table csv = header :: before ++ r :: after ->
  Forall (Table.passes T header) before ->
  Table.shaped header r ->
  unmarshal T header r = inl e ->
  e <> EOF ->
  (forall t, e <> csvParseError t) ->
  Delimited.err (Delimited.Query class columns where_ (OutSlice ptr T elems)) = Some e
  /\ Delimited.dest (Delimited.Query class columns where_ (OutSlice ptr T elems))
     = OutSlice ptr T elems.
Proof.
  intros Ha Htab Hbefore Hshape Hu Heof Hparse.
  pose proof (Delimited_decode class columns where_ ptr T elems csv Ha) as Hq.
  cbv zeta in Hq. rewrite Htab in Hq.
  rewrite (decodeLoop_first_error T header before after r e []) in Hq; try done.
  - by destruct Hq.
  - unfold Delimited.Decode. unfold Table.shaped in Hshape.
    by rewrite bool_decide_eq_true_2.
Qed.

Lemma conversion_error_aborts_witness :
  Delimited.err
    (@Delimited.Query
       (TestRuntime.printing (TestRuntime.lines ["Name,Age"; "Carol,41"; "Dave,old"]))
       scalarCsvutil "Win32_Process" [] "" (OutSlice false TestRuntime.person []))
  = Some (csvutilError "csvutil: cannot unmarshal old")
  /\ Delimited.dest
       (@Delimited.Query
          (TestRuntime.printing (TestRuntime.lines ["Name,Age"; "Carol,41"; "Dave,old"]))
          scalarCsvutil "Win32_Process" [] "" (OutSlice false TestRuntime.person []))
     = OutSlice false TestRuntime.person [].
Proof.
  refine (@conversion_error_aborts
            (TestRuntime.printing (TestRuntime.lines ["Name,Age"; "Carol,41"; "Dave,old"]))
            scalarCsvutil "Win32_Process" [] "" false TestRuntime.person []
            (TestRuntime.lines ["Name,Age"; "Carol,41"; "Dave,old"])
            ["Name"; "Age"] [["Carol"; "41"]] ["Dave"; "old"] []
            (csvutilError "csvutil: cannot unmarshal old") _ _ _ _ _ _ _).
  - intros query. reflexivity.
  - reflexivity.
  - repeat constructor.
  - reflexivity.
  - reflexivity.
  - discriminate.
  - intros t. discriminate.
Defined.

(** ** Splitting and joining *)

Section Splitting.
Context `{Runtime}.
Import Framing.

(** Joining what [Split] gave, with the separator, gives the text back. *)
Lemma Join_Split (s : string) (sep : ascii) :
  strings.Join (strings.Split s sep) (String sep "") = s.
Proof.
  unfold strings.Join, strings.Split.
  induction s as [|c s IH]; [done|]. cbn [strings.splitByte].
  destruct (strings.splitByte sep s) as [|p ps] eqn:Es.
  { by apply splitByte_not_nil in Es. }
  destruct (Ascii.eqb c sep) eqn:E.
  - apply Ascii.eqb_eq in E as ->.
    change (String.concat (String sep "") ("" :: p :: ps))
      with (String sep (String.concat (String sep "") (p :: ps))).
    by rewrite IH.
  - destruct ps as [|q qs].
    + simpl in *. by rewrite IH.
    + change (String.concat (String sep "") (String c p :: q :: qs))
        with (String c (String.concat (String sep "") (p :: q :: qs))).
      by rewrite IH.
Qed.

(** No piece of a split holds the separator. *)
Lemma Split_pieces (s : string) (sep : ascii) :
  Forall (fun p => strings.RemoveAll p sep = p) (strings.Split s sep).
Proof.
  unfold strings.Split. induction s as [|c s IH]; [by constructor|].
  cbn [strings.splitByte]. destruct (Ascii.eqb c sep) eqn:E.
  - by constructor.
  - destruct (strings.splitByte sep s) as [|p ps].
    { constructor; [|constructor]. simpl. by rewrite E. }
    apply Forall_cons in IH as [Hp Hps]. constructor; [|done].
    simpl. by rewrite E, Hp.
Qed.

Lemma RemoveAll_length (s : string) (q : ascii) :
  (String.length (strings.RemoveAll s q) <= String.length s)%nat.
Proof.
  induction s as [|c s IH]; simpl; [done|].
  destruct (Ascii.eqb c q); simpl; lia.
Qed.

Lemma RemoveAll_head (c : ascii) (s : string) (q : ascii) :
  strings.RemoveAll (String c s) q = String c s ->
  Ascii.eqb c q = false /\ strings.RemoveAll s q = s.
Proof.
  simpl. destruct (Ascii.eqb c q) eqn:E.
  - intros Heq. pose proof (RemoveAll_length s q) as Hlen.
    rewrite Heq in Hlen. simpl in Hlen. lia.
  - by intros [= ->].
Qed.

(** [SplitN2] cuts at the first separator and nowhere else. *)
Lemma SplitN2_cut (s a b : string) (sep : ascii) :
  strings.SplitN2 s sep = [a; b]
  <-> s = a +:+ String sep b /\ strings.RemoveAll a sep = a.
Proof.
  split.
  - revert a. induction s as [|c s IH]; intros a; simpl; [done|].
    destruct (Ascii.eqb c sep) eqn:E.
    + apply Ascii.eqb_eq in E as ->. by intros [= <- <-].
    + destruct (strings.SplitN2 s sep) as [|x [|y [|z l]]]; try done.
      intros [= <- <-]. destruct (IH x eq_refl) as [-> Hx].
      split; [done|]. simpl. by rewrite E, Hx.
  - intros [-> Ha]. induction a as [|c a IH].
    + simpl. by rewrite Ascii.eqb_refl.
    + apply RemoveAll_head in Ha as [E Ha].
      change (String c a +:+ String sep b) with (String c (a +:+ String sep b)).
      cbn [strings.SplitN2]. by rewrite E, (IH Ha).
Qed.

End Splitting.

(** X12.  The tokens of a filter clause in the argument list are the
    trimmed clause cut at its single spaces: joined again by single spaces
    they give the trimmed clause back, and no token holds a space; only
    the parenthesis tokens are added. *)
Theorem where_clause_passed_verbatim (where_ : string) :
  where_ <> "" ->
  exists opening parts closing,
    KeyValue.whereTokens where_ = ["WHERE"] ++ opening ++ parts ++ closing
    /\ (opening = [] \/ opening = ["("])
    /\ (closing = [] \/ closing = [")"])
    /\ strings.Join parts " " = strings.TrimSpace where_
    /\ Forall (fun p => strings.RemoveAll p " " = p) parts.
Proof.
  intros Hw. unfold KeyValue.whereTokens. apply String.eqb_neq in Hw. rewrite Hw.
  eexists _, (strings.Split (strings.TrimSpace where_) " "), _.
  split; [reflexivity|]. split_and!.
  - destruct (strings.HasPrefix _ _); auto.
  - destruct (strings.HasSuffix _ _); auto.
  - apply Join_Split.
  - apply Split_pieces.
Qed.

Lemma where_clause_passed_verbatim_witness :
  exists opening parts closing,
    KeyValue.whereTokens " Name = 'a  b' " = ["WHERE"] ++ opening ++ parts ++ closing
    /\ (opening = [] \/ opening = ["("])
    /\ (closing = [] \/ closing = [")"])
    /\ strings.Join parts " " = strings.TrimSpace " Name = 'a  b' "
    /\ Forall (fun p => strings.RemoveAll p " " = p) parts.
Proof.
  refine (where_clause_passed_verbatim " Name = 'a  b' " _). discriminate.
Defined.

(** X13.  Key/value pipeline: a line is a raw field exactly when, trimmed,
    it is a name without [=], then [=], then a rest whose trimmed text is
    not empty; the value is that trimmed text, so a value may itself hold
    [=], and the name is taken as it stands before the first [=]. *)
Theorem raw_field_cut_at_first_separator `{Runtime} (text name val : string) :
  Framing.rawField text = Some (name, val)
  <-> exists rest,
        strings.TrimSpace text = name +:+ String "=" rest
        /\ strings.RemoveAll name "=" = name
        /\ val = strings.TrimSpace rest
        /\ val <> "".
Proof.
  unfold Framing.rawField. split.
  - destruct (strings.SplitN2 (strings.TrimSpace text) "=") as [|a [|b [|c l]]] eqn:Hs;
      try done.
    destruct (String.eqb (strings.TrimSpace b) "") eqn:E; [done|].
    intros [= <- <-]. apply SplitN2_cut in Hs as [Hs Ha].
    exists b. split_and!; try done. by apply String.eqb_neq.
  - intros (rest & Ht & Hn & -> & Hv).
    rewrite (proj2 (SplitN2_cut _ name rest "=") (conj Ht Hn)).
    apply String.eqb_neq in Hv. by rewrite Hv.
Qed.

(** ** Rows and the fields they leave alone *)

Section Counting.
Context `{Runtime}.
Import Framing Table.

Lemma concat_length_nonempty {A : Type} (l : list (list A)) :
  Forall (fun b => b <> []) l -> (length l <= length (concat l))%nat.
Proof.
  induction 1 as [|b l Hb _ IH]; simpl; [done|].
  rewrite length_app. destruct b; [done|]. simpl. lia.
Qed.

(** On success the destination holds the records of the rows. *)
Lemma success_rows (class : string) (columns : list string) (where_ : string)
    (ptr : bool) (T : StructType) (elems : list Record_) (timeout : string)
    (fieldCache : gmap string string) (d : Duration) (text : string) :
  ParseDuration timeout = Some d ->
  answers (Some d) text ->
  KeyValue.err (KeyValue.QueryWithTimeout class columns where_ (OutSlice ptr T elems)
                  timeout fieldCache) = None ->
  KeyValue.dest (KeyValue.QueryWithTimeout class columns where_ (OutSlice ptr T elems)
                   timeout fieldCache)
  = OutSlice ptr T (map (decodeRow T) (rows (bufio.ScanLines text))).
Proof.
  intros Hd Ha Herr.
  pose proof (KeyValue_decode class columns where_ ptr T elems timeout fieldCache
                d text Hd Ha) as Hq. cbv zeta in Hq.
  destruct (KeyValue.scanLoop class T (KeyValue.startLoop T) (bufio.ScanLines text))
    as [[errs e]|st] eqn:Hl.
  - destruct Hq as (_ & _ & Hq). congruence.
  - destruct Hq as (Hdest & _ & _). destruct (finish_rows _ _ _ _ Hl) as [Hfin _].
    by rewrite Hdest, Hfin.
Qed.

End Counting.

(** X14.  Key/value pipeline: a successful call stores at most as many
    records as the output has non-blank lines, since every record comes
    from a block of at least one such line. *)
Theorem records_bounded_by_lines `{Runtime}
    (class : string) (columns : list string) (where_ : string) (ptr : bool)
    (T : StructType) (elems : list Record_) (timeout : string)
    (fieldCache : gmap string string) (d : Duration) (text : string) :
  ParseDuration timeout = Some d ->
  Table.answers (Some d) text ->
  KeyValue.err (KeyValue.QueryWithTimeout class columns where_ (OutSlice ptr T elems)
                  timeout fieldCache) = None ->
  exists out',
    KeyValue.dest (KeyValue.QueryWithTimeout class columns where_ (OutSlice ptr T elems)
                     timeout fieldCache) = OutSlice ptr T out'
    /\ (length out'
        <= length (filter (fun t => Framing.blank t = false) (bufio.ScanLines text)))%nat.
Proof.
  intros Hd Ha Herr. eexists. split; [by eapply success_rows|].
  unfold Framing.rows. rewrite !length_map.
  destruct (blocks_lines (bufio.ScanLines text)) as [<- Hne].
  by apply concat_length_nonempty.
Qed.

Lemma records_bounded_by_lines_witness :
  exists out',
    KeyValue.dest (@KeyValue.QueryWithTimeout TestRuntime.examples "Win32_Process" [] ""
                     (OutSlice false TestRuntime.person []) "30m" ∅)
    = OutSlice false TestRuntime.person out'
    /\ (length out'
        <= length (filter (fun t => Framing.blank t = false)
                     (bufio.ScanLines TestRuntime.kvText)))%nat.
Proof.
  refine (@records_bounded_by_lines TestRuntime.examples "Win32_Process" [] "" false
            TestRuntime.person [] "30m" ∅ 1800 TestRuntime.kvText _ _ _).
  - reflexivity.
  - intros query. reflexivity.
  - reflexivity.
Defined.

(** X15.  Key/value pipeline: in a successful call, a field that no line
    of a row assigns (with a value that is not empty) has its zero value
    in the record of that row, whatever the rows before assigned. *)
Theorem unmentioned_field_is_zero `{Runtime}
    (class : string) (columns : list string) (where_ : string) (ptr : bool)
    (T : StructType) (elems : list Record_) (timeout : string)
    (fieldCache : gmap string string) (d : Duration) (text : string)
    (n : nat) (row : list (string * string)) (name : string) (i : nat) (k : Kind) :
  ParseDuration timeout = Some d ->
  Table.answers (Some d) text ->
  KeyValue.err (KeyValue.QueryWithTimeout class columns where_ (OutSlice ptr T elems)
                  timeout fieldCache) = None ->
  Framing.rows (bufio.ScanLines text) !! n = Some row ->
  Forall (fun f => fst f <> name) row ->
  FieldByName T name = Some (i, k) ->
  exists out' r,
    KeyValue.dest (KeyValue.QueryWithTimeout class columns where_ (OutSlice ptr T elems)
                     timeout fieldCache) = OutSlice ptr T out'
    /\ out' !! n = Some r
    /\ r !! i = Some (zeroValue k).
Proof.
  intros Hd Ha Herr Hrow Hother Hf.
  exists (map (Framing.decodeRow T) (Framing.rows (bufio.ScanLines text))),
         (Framing.decodeRow T row).
  split; [by eapply success_rows|]. split.
  - change (map (Framing.decodeRow T) (Framing.rows (bufio.ScanLines text)))
      with (Framing.decodeRow T <$> Framing.rows (bufio.ScanLines text)).
    by rewrite list_lookup_fmap, Hrow.
  - by eapply decodeRow_other.
Qed.

Lemma unmentioned_field_is_zero_witness :
  exists out' r,
    KeyValue.dest
      (@KeyValue.QueryWithTimeout
         (TestRuntime.printing (TestRuntime.lines ["Name=Alice"; "Age=30"; ""; "Name=Bob"]))
         "Win32_Process" [] "" (OutSlice false TestRuntime.person []) "30m" ∅)
    = OutSlice false TestRuntime.person out'
    /\ out' !! 1%nat = Some r
    /\ r !! 1%nat = Some (VInt 0).
Proof.
  refine (@unmentioned_field_is_zero
            (TestRuntime.printing
               (TestRuntime.lines ["Name=Alice"; "Age=30"; ""; "Name=Bob"]))
            "Win32_Process" [] "" false TestRuntime.person [] "30m" ∅ 1800
            (TestRuntime.lines ["Name=Alice"; "Age=30"; ""; "Name=Bob"])
            1%nat [("Name", "Bob")] "Age" 1%nat (KInt 64) _ _ _ _ _ _).
  - reflexivity.
  - intros query. reflexivity.
  - reflexivity.
  - reflexivity.
  - repeat constructor. discriminate.
  - reflexivity.
Defined.

(** ** Rows of the whole output *)

Section WholeText.
Context `{Runtime} `{!Csvutil}.




(** A line that does not fit ends the scan: the lines from it on are not
    seen. *)
Lemma scanTokens_cut (before : list string) (long : string) (after : list string) :
  Forall (fun seg => bufio.fits seg = true) before ->
  bufio.fits long = false ->
  bufio.scanTokens (before ++ long :: after) = map bufio.dropCR before.
Proof.
  intros Hall Hlong. induction Hall as [|seg rest Hfit _ IH]; simpl.
  - rewrite Hlong. destruct after; [|done]. by destruct (String.eqb long "").
  - destruct (rest ++ long :: after) as [|x l] eqn:E; [by destruct rest|].
    by rewrite Hfit, IH.
Qed.


End WholeText.




(** C8, as the code has it.  Delimited pipeline: a record whose number of
    fields is not that of the header is passed over, and the call does what
    it does on the table without that record.  When the other records
    decode, the destination receives them all, those after the bad record
    included, one fewer than the records of the table.  A record of the
    right shape that [csvutil] refuses, a value that does not convert
    included, ends the call with that error when the records before it were
    decoded or passed over: the records already decoded are dropped and the
    destination stays as the caller passed it.  When the call ends in an
    error, the error is the one [csvutil] returned for a record of the
    right shape, and is neither [io.EOF] nor a [csv.ParseError]. *)
Theorem malformed_row_skipped `{Runtime} `{!Csvutil}
    (class : string) (columns : list string) (where_ : string) (ptr : bool)
    (T : StructType) (elems : list Record_) (csv : string) (header : list string)
    (before : list (list string)) (bad : list string) (after : list (list string)) :
  Table.answers None csv ->
  Table.table csv = header :: before ++ bad :: after ->
  ~ Table.shaped header bad ->
  match Delimited.decodeLoop T header (before ++ after) [] with
  | inl e =>
      Delimited.dest (Delimited.Query class columns where_ (OutSlice ptr T elems))
      = OutSlice ptr T elems
      /\ Delimited.err (Delimited.Query class columns where_ (OutSlice ptr T elems))
         = Some e
  | inr result =>
      Delimited.dest (Delimited.Query class columns where_ (OutSlice ptr T elems))
      = OutSlice ptr T result
      /\ Delimited.err (Delimited.Query class columns where_ (OutSlice ptr T elems))
         = None
  end
  /\ (Forall (fun r => exists s, Delimited.Decode T header r = inr s) (before ++ after) ->
      Delimited.err (Delimited.Query class columns where_ (OutSlice ptr T elems)) = None
      /\ Delimited.dest (Delimited.Query class columns where_ (OutSlice ptr T elems))
         = OutSlice ptr T (Table.decoded T header before ++ Table.decoded T header after)
      /\ length (Table.decoded T header before ++ Table.decoded T header after)
         = (length (before ++ bad :: after) - 1)%nat)
  /\ (forall (prefix : list (list string)) (r : list string)
        (suffix : list (list string)) (e : error),
        before ++ after = prefix ++ r :: suffix ->
        Forall (Table.passes T header) prefix ->
        Table.shaped header r ->
        unmarshal T header r = inl e ->
        e <> EOF ->
        (forall t, e <> csvParseError t) ->
        Delimited.err (Delimited.Query class columns where_ (OutSlice ptr T elems))
        = Some e
        /\ Delimited.dest (Delimited.Query class columns where_ (OutSlice ptr T elems))
           = OutSlice ptr T elems)
  /\ (forall e,
        Delimited.err (Delimited.Query class columns where_ (OutSlice ptr T elems))
        = Some e ->
        exists r, In r (before ++ after) /\ Table.shaped header r
                  /\ unmarshal T header r = inl e
                  /\ e <> EOF /\ forall t, e <> csvParseError t).
Proof.
  intros Ha Htab Hbad.
  pose proof (Delimited_decode class columns where_ ptr T elems csv Ha) as Hq.
  cbv zeta in Hq. rewrite Htab in Hq.
  rewrite (decodeLoop_misshapen T header before after bad [] Hbad) in Hq.
  split; [exact Hq|]. split; [|split].
  - intros Hgood.
    rewrite decodeLoop_passes in Hq.
    2:{ eapply List.Forall_impl; [|exact Hgood]. intros r. apply passes_decoded. }
    destruct Hq as [Hdest Herr]. simpl in Hdest.
    assert (Table.decoded T header (before ++ after)
            = Table.decoded T header before ++ Table.decoded T header after) as Happ.
    { unfold Table.decoded. apply omap_app. }
    rewrite Happ in Hdest. split; [done|]. split; [done|].
    rewrite <- Happ.
    pose proof (Forall2_length _ _ _ (decoded_all T header _ Hgood)) as Hlen.
    rewrite <- Hlen, !length_app. simpl. lia.
  - intros prefix r suffix e Hsplit Hprefix Hshape Hu Heof Hparse.
    rewrite Hsplit in Hq.
    rewrite (decodeLoop_first_error T header prefix suffix r e []) in Hq; try done.
    + by destruct Hq.
    + unfold Delimited.Decode. unfold Table.shaped in Hshape.
      by rewrite bool_decide_eq_true_2.
  - intros e He.
    destruct (Delimited.decodeLoop T header (before ++ after) []) as [e'|result] eqn:Hl.
    + destruct Hq as [_ Herr]. assert (e' = e) as -> by congruence.
      by eapply decodeLoop_abort.
    + destruct Hq as [_ Herr]. congruence.
Qed.

Lemma malformed_row_skipped_witness :
  Delimited.dest
    (@Delimited.Query
       (TestRuntime.printing (TestRuntime.lines ["Name,Age"; "Carol,41"; "x"; "Dave, 7"]))
       scalarCsvutil "Win32_Process" [] "" (OutSlice false TestRuntime.person []))
  = OutSlice false TestRuntime.person [[VString "Carol"; VInt 41]; [VString "Dave"; VInt 7]]
  /\ Delimited.err
       (@Delimited.Query (TestRuntime.printing TestTexts.csvMixed)
          scalarCsvutil "Win32_Process" [] ""
          (OutSlice false TestRuntime.person [[VString "Zoe"; VInt 9]]))
     = Some (csvutilError "csvutil: cannot unmarshal old")
  /\ Delimited.dest
       (@Delimited.Query (TestRuntime.printing TestTexts.csvMixed)
          scalarCsvutil "Win32_Process" [] ""
          (OutSlice false TestRuntime.person [[VString "Zoe"; VInt 9]]))
     = OutSlice false TestRuntime.person [[VString "Zoe"; VInt 9]].
Proof.
  split.
  - destruct (@malformed_row_skipped
                (TestRuntime.printing
                   (TestRuntime.lines ["Name,Age"; "Carol,41"; "x"; "Dave, 7"]))
                scalarCsvutil "Win32_Process" [] "" false TestRuntime.person []
                (TestRuntime.lines ["Name,Age"; "Carol,41"; "x"; "Dave, 7"])
                ["Name"; "Age"] [["Carol"; "41"]] ["x"] [["Dave"; "7"]])
      as (_ & Hgood & _).
    + intros query. reflexivity.
    + reflexivity.
    + vm_compute. discriminate.
    + destruct Hgood as (_ & Hdest & _).
      * repeat constructor; eexists; reflexivity.
      * exact Hdest.
  - destruct (@malformed_row_skipped
                (TestRuntime.printing TestTexts.csvMixed)
                scalarCsvutil "Win32_Process" [] "" false TestRuntime.person
                [[VString "Zoe"; VInt 9]] TestTexts.csvMixed
                ["Name"; "Age"] [["Carol"; "41"]] ["x"]
                [["Dave"; "old"]; ["Eve"; "5"]])
      as (_ & _ & Hfirst & _).
    + intros query. reflexivity.
    + reflexivity.
    + vm_compute. discriminate.
    + refine (Hfirst [["Carol"; "41"]] ["Dave"; "old"] [["Eve"; "5"]]
                (csvutilError "csvutil: cannot unmarshal old") _ _ _ _ _ _).
      * reflexivity.
      * repeat constructor.
      * reflexivity.
      * reflexivity.
      * discriminate.
      * intros t. discriminate.
Defined.

(** C8, as the claim has it, fails where it says that only a structural
    read failure ends the call: every record of the output below is read,
    the one of the wrong shape is passed over, and the value [old] of a
    record of the right shape, which does not convert to the integer field
    [Age], ends the call with the error of [csvutil]; the record decoded
    before it and the well-formed one after it are not delivered. *)
Lemma unconvertible_value_aborts :
  Table.table TestTexts.csvMixed
  = [["Name"; "Age"]; ["Carol"; "41"]; ["x"]; ["Dave"; "old"]; ["Eve"; "5"]]
  /\ Table.shaped ["Name"; "Age"] ["Dave"; "old"]
  /\ Delimited.err
       (@Delimited.Query (TestRuntime.printing TestTexts.csvMixed)
          scalarCsvutil "Win32_Process" [] "" (OutSlice false TestRuntime.person []))
     = Some (csvutilError "csvutil: cannot unmarshal old")
  /\ Delimited.dest
       (@Delimited.Query (TestRuntime.printing TestTexts.csvMixed)
          scalarCsvutil "Win32_Process" [] "" (OutSlice false TestRuntime.person []))
     = OutSlice false TestRuntime.person [].
Proof.
  split_and!; reflexivity.
Qed.
